(** * Protein-Analyzer: the record field extractor and its callers

    A shallow embedding of [ASG01.py] (first variant) and [app.py] (second
    variant).  Python [str] values are modelled as [string]: sequences of
    code points below 256.  Dictionaries are [gmap string _]; exceptions are
    explicit results; calls to [requests] and [streamlit] are recorded as a
    trace of events. *)

From Stdlib Require Import ZArith Ascii String SpecFloat.
From stdpp Require Import gmap strings list fin_maps.

Local Open Scope Z_scope.

(** ** Python built-ins used by the program *)

Module Py.

(** Exceptions the modelled code can raise. *)
Inductive exn := IndexError | ValueError | AttributeError | TypeError | JSONDecodeError.

Inductive result (A : Type) : Type :=
| Ok (a : A)
| Raise (e : exn).
Arguments Ok {A} a.
Arguments Raise {A} e.

Definition bind {A B} (m : result A) (k : A -> result B) : result B :=
  match m with
  | Ok a => k a
  | Raise e => Raise e
  end.

(** [c.isspace()] on code points below 256. *)
Definition isspace (c : ascii) : bool :=
  match c with
  | "009" | "010" | "011" | "012" | "013"
  | "028" | "029" | "030" | "031" | " " | "133" | "160" => true
  | _ => false
  end%char.

(** The line boundaries of [str.splitlines] below 256. *)
Definition is_linebreak (c : ascii) : bool :=
  match c with
  | "010" | "011" | "012" | "013" | "028" | "029" | "030" | "133" => true
  | _ => false
  end%char.

Definition snoc (s : string) (c : ascii) : string := s +:+ String c "".

(** [s.startswith(p)] *)
Definition startswith (s p : string) : bool := String.prefix p s.

Arguments startswith : simpl never.

(** [sub in s] *)
Fixpoint contains (sub s : string) : bool :=
  String.prefix sub s ||
  match s with
  | EmptyString => false
  | String _ s' => contains sub s'
  end.

(** [s.split()]: the maximal runs of non-whitespace characters.  [cur] is the
    run being read, [None] between runs. *)
Fixpoint split_ws_go (cur : option string) (s : string) : list string :=
  match s with
  | EmptyString => match cur with Some t => [t] | None => [] end
  | String c s' =>
      if isspace c then
        match cur with
        | Some t => t :: split_ws_go None s'
        | None => split_ws_go None s'
        end
      else split_ws_go (Some (snoc (default "" cur) c)) s'
  end.

Definition split_ws (s : string) : list string := split_ws_go None s.

(** [s.split(sep)] for a non-empty [sep]: cut at the non-overlapping
    occurrences of [sep], scanning from the left.  [skip] counts the
    characters of a matched separator still to be passed over. *)
Fixpoint split_go (sep : string) (skip : nat) (cur : string) (s : string) : list string :=
  match s with
  | EmptyString => [cur]
  | String c s' =>
      match skip with
      | S k => split_go sep k cur s'
      | O =>
          if String.prefix sep s
          then cur :: split_go sep (Nat.pred (String.length sep)) "" s'
          else split_go sep O (snoc cur c) s'
      end
  end.

Definition split (s sep : string) : list string := split_go sep O "" s.

(** [s.strip()] *)
Fixpoint lstrip (s : string) : string :=
  match s with
  | EmptyString => ""
  | String c s' => if isspace c then lstrip s' else s
  end.

Fixpoint rstrip (s : string) : string :=
  match s with
  | EmptyString => ""
  | String c s' =>
      match rstrip s' with
      | EmptyString => if isspace c then "" else String c ""
      | r => String c r
      end
  end.

Definition strip (s : string) : string := rstrip (lstrip s).

(** [sep.join(l)] *)
Fixpoint join (sep : string) (l : list string) : string :=
  match l with
  | [] => ""
  | [x] => x
  | x :: l' => x +:+ sep +:+ join sep l'
  end.

(** [s.splitlines()]: [after_cr] tells that the previous character was a
    carriage return, so that a line feed right after it ends the same line. *)
Fixpoint splitlines_go (after_cr : bool) (cur : string) (s : string) : list string :=
  match s with
  | EmptyString => match cur with EmptyString => [] | _ => [cur] end
  | String c s' =>
      if after_cr && Ascii.eqb c "010" then splitlines_go false cur s'
      else if is_linebreak c then cur :: splitlines_go (Ascii.eqb c "013") "" s'
      else splitlines_go false (snoc cur c) s'
  end.

Definition splitlines (s : string) : list string := splitlines_go false "" s.

(** [int(s)] in base 10: surrounding whitespace, an optional sign, digits
    with single underscores between them.  CPython refuses, with the same
    [ValueError], a literal of more than [int_max_str_digits] digits (4300
    unless configured otherwise); leading zeros count, underscores do not. *)
Definition digit (c : ascii) : option Z :=
  let code := Z.of_N (N_of_ascii c) in
  if (48 <=? code) && (code <=? 57) then Some (code - 48) else None.

Fixpoint int_digits (after_digit : bool) (acc : Z) (s : string) : option Z :=
  match s with
  | EmptyString => if after_digit then Some acc else None
  | String c s' =>
      match digit c with
      | Some d => int_digits true (10 * acc + d) s'
      | None =>
          if Ascii.eqb c "_" && after_digit then int_digits false acc s' else None
      end
  end.

Definition int_max_str_digits : Z := 4300.

Fixpoint count_digits (s : string) : Z :=
  match s with
  | EmptyString => 0
  | String c s' => match digit c with Some _ => 1 | None => 0 end + count_digits s'
  end.

Definition int (s : string) : result Z :=
  let t := strip s in
  let r :=
    match t with
    | String "-" t' => Z.opp <$> int_digits false 0 t'
    | String "+" t' => int_digits false 0 t'
    | _ => int_digits false 0 t
    end in
  match r with
  | Some n => if count_digits t <=? int_max_str_digits then Ok n else Raise ValueError
  | None => Raise ValueError
  end.

(** [l[i]] for [i >= 0] and [l[-1]] *)
Definition getitem {A} (l : list A) (i : nat) : result A :=
  match l !! i with
  | Some x => Ok x
  | None => Raise IndexError
  end.

Definition getitem_last {A} (l : list A) : result A :=
  match last l with
  | Some x => Ok x
  | None => Raise IndexError
  end.

End Py.

Import Py.

#[global] Instance result_ret : MRet result := @Ok.
#[global] Instance result_bind : MBind result := fun A B k m => Py.bind m k.

(** ** Data shared by the two variants *)

(** What the extractor stores under a key of [protein_data]. *)
Inductive value :=
| VStr (s : string)
| VInt (n : Z)
| VList (l : list string).

#[global] Instance value_eq_dec : EqDecision value.
Proof. solve_decision. Defined.

(** Python truth value of a stored value and of [d.get(k)]. *)
Definition truthy (v : value) : bool :=
  match v with
  | VStr s => negb (String.eqb s "")
  | VInt n => negb (n =? 0)
  | VList l => negb (bool_decide (l = []))
  end.

Definition truthy_opt (o : option value) : bool :=
  match o with
  | Some v => truthy v
  | None => false
  end.

(** What [response.json()] yields. *)
#[warning="-register-all"]
Inductive json :=
| JNull
| JBool (b : bool)
| JInt (n : Z)
| JFloat (x : spec_float)
| JStr (s : string)
| JArr (l : list json)
| JObj (m : gmap string json).

Definition json_truthy (j : json) : bool :=
  match j with
  | JNull => false
  | JBool b => b
  | JInt n => negb (n =? 0)
  | JFloat (S754_zero _) => false
  | JFloat _ => true
  | JStr s => negb (String.eqb s "")
  | JArr l => match l with [] => false | _ => true end
  | JObj m => negb (bool_decide (m = ∅))
  end.

(** The endpoints.  A url is kept as the template of its f-string together
    with the values substituted into it; an [option value] is the result of
    [d.get(k)], [None] when the key is missing. *)
Inductive url :=
| UniProt (uniprot_id : string)
    (* https://www.uniprot.org/uniprot/{uniprot_id}.txt *)
| StringDB (uniprot_id : string) (species : Z)
    (* https://string-db.org/api/json/network?identifiers={uniprot_id}&species={species} *)
| RCSB (pdb_id : option value)
    (* https://files.rcsb.org/download/{pdb_id}.pdb *)
| AlphaFoldDB (af_id : option value).
    (* https://alphafold.ebi.ac.uk/files/AF-{af_id}-F1-model_v4.pdb *)

Record response := Response {
  status_code : Z;
  text : string;
  json_body : result json   (* response.json() *)
}.

(** A piece of an f-string: literal text or a formatted value. *)
Inductive fragment :=
| Lit (s : string)
| Fmt (v : value)
| FmtGet (v : option value).

(** The observable calls, in the order they are made. *)
Inductive event :=
| requests_get (u : url)
| st_title (s : string)
| st_text_input (label : string)
| st_button (label : string)
| st_subheader (s : string)
| st_write (f : list fragment)
| st_error (s : string)
| st_warning (s : string)
| st_pyplot (edges : list (json * json))     (* the figure drawn from graph G *)
| st_markdown (edges : list (json * json))   (* the caption with G's counts *)
| st_html (pdb_data : string).               (* the embedded 3D viewer *)

(** Effectful code: the events emitted so far and how it ended. *)
Record io (A : Type) := IO { trace : list event; outcome : result A }.
Arguments IO {A} trace outcome.
Arguments trace {A} _.
Arguments outcome {A} _.

#[global] Instance io_ret : MRet io := fun A a => IO [] (Ok a).
#[global] Instance io_bind : MBind io := fun A B k m =>
  match outcome m with
  | Ok a => IO (trace m ++ trace (k a)) (outcome (k a))
  | Raise e => IO (trace m) (Raise e)
  end.

Definition emit (e : event) : io unit := IO [e] (Ok tt).
Definition lift {A} (r : result A) : io A := IO [] r.

(** [for x in v] over a stored value. *)
Fixpoint chars (s : string) : list string :=
  match s with
  | EmptyString => []
  | String c s' => String c "" :: chars s'
  end.

Definition iterate (v : value) : result (list value) :=
  match v with
  | VList l => Ok (VStr <$> l)
  | VStr s => Ok (VStr <$> chars s)
  | VInt _ => Raise TypeError
  end.

Definition when (b : bool) (m : io unit) : io unit := if b then m else mret tt.

(** [display_protein_characteristics], the same text in both files. *)
Definition display_protein_characteristics (protein_data : gmap string value) : io unit :=
  let get k d := default (VStr d) (protein_data !! k) in
  let write_if k label :=
    match protein_data !! k with
    | Some v => emit (st_write [Lit label; Fmt v])
    | None => mret tt
    end in
  emit (st_subheader "Protein Characteristics");;
  emit (st_write [Lit "**UniProt ID:** "; Fmt (get "ID" "N/A")]);;
  emit (st_write [Lit "**Name:** "; Fmt (get "Name" "N/A")]);;
  emit (st_write [Lit "**Length:** "; Fmt (get "Length" "Not available")]);;
  emit (st_write [Lit "**Molecular Weight:** "; Fmt (get "Weight" "N/A")]);;
  emit (st_write [Lit "**Function:** "; Fmt (get "Function" "N/A")]);;
  write_if "Structure" "**Structure:** ";;
  write_if "Subcellular Location" "**Subcellular Location:** ";;
  match protein_data !! "PTMs" with
  | Some v =>
      emit (st_write [Lit "**Post-Translational Modifications (PTMs):**"]);;
      ptms ← lift (iterate v);
      IO ((fun ptm => st_write [Lit "- "; Fmt ptm]) <$> ptms) (Ok tt)
  | None => mret tt
  end;;
  write_if "Pathway" "**Pathway Involvement:** ";;
  write_if "Disease" "**Disease Association:** ".

(** ** First variant: ASG01.py *)

Module ASG01.

(** The body of [for i, line in enumerate(lines)] in [get_protein_data]. *)
Definition loop_body (lines : list string) (i : nat) (line : string)
    (protein_data : gmap string value) : result (gmap string value) :=
  if startswith line "ID" then
    let fields := split_ws line in
    Ok (<["Name" := VStr (if bool_decide (2 ≤ length fields)%nat
                          then join " " (drop 1 fields)
                          else "Not available")]> protein_data)
  else if startswith line "SQ" && bool_decide (i + 1 < length lines)%nat then
    weight_line ← getitem lines (i + 1);
    weight ← getitem_last (split_ws weight_line);
    Ok (<["Weight" := VStr weight]> protein_data)
  else if startswith line "DE   RecName: Full=" then
    after ← getitem (split line "Full=") 1;
    function ← getitem (split after ";") 0;
    Ok (<["Function" := VStr function]> protein_data)
  else if startswith line "DR   SUPFAM" then
    structure ← getitem (split line ";") 1;
    Ok (<["Structure" := VStr structure]> protein_data)
  else if startswith line "FT   MOD_RES" then
    let parts := split_ws line in
    protein_data ←
      (if bool_decide (3 ≤ length parts)%nat then
         part ← getitem parts 2;
         n ← int part;
         Ok (<["Length" := VInt n]> protein_data)
       else Ok protein_data);
    let ptms := drop 1 (split line ";") in
    Ok (if bool_decide (ptms ≠ [])
        then <["PTMs" := VList (strip <$> ptms)]> protein_data
        else protein_data)
  else if startswith line "CC   -!- SUBCELLULAR LOCATION:" then
    after ← getitem (split line "CC   -!- SUBCELLULAR LOCATION:") 1;
    Ok (<["Subcellular Location" := VStr (strip after)]> protein_data)
  else if startswith line "DR   Reactome" then
    pathway ← getitem (split line ";") 1;
    Ok (<["Pathway" := VStr pathway]> protein_data)
  else if startswith line "DR   MIM" then
    disease ← getitem (split line ";") 1;
    Ok (<["Disease" := VStr disease]> protein_data)
  else Ok protein_data.

(** The loop itself: [rest] are the lines from index [i] on. *)
Fixpoint for_loop (lines : list string) (i : nat) (rest : list string)
    (protein_data : gmap string value) : result (gmap string value) :=
  match rest with
  | [] => Ok protein_data
  | line :: rest' =>
      protein_data ← loop_body lines i line protein_data;
      for_loop lines (S i) rest' protein_data
  end.

(** [get_protein_data] from the assignment of [protein_data] to the
    [return]: the extractor proper, on the lines of the record. *)
Definition extract (uniprot_id : string) (lines : list string)
    : result (gmap string value) :=
  for_loop lines 0 lines {["ID" := VStr uniprot_id]}.

Section Web.
Variable web : url -> response.   (* what requests.get answers *)

Definition get_protein_data (uniprot_id : string) : io (gmap string value) :=
  emit (requests_get (UniProt uniprot_id));;
  let response := web (UniProt uniprot_id) in
  if negb (status_code response =? 200) then
    emit (st_error "Invalid UniProt ID or unable to fetch data.");;
    mret ∅
  else
    lift (extract uniprot_id (splitlines (text response))).

(** The placeholder network: all pairs [i < j] of ten fixed names. *)
Definition get_ppi_network (uniprot_id : string) : list (string * string) :=
  let proteins := ["ProteinA"; "ProteinB"; "ProteinC"; "ProteinD"; "ProteinE";
                   "ProteinF"; "ProteinG"; "ProteinH"; "ProteinI"; "ProteinJ"] in
  i ← seq 0 (length proteins);
  j ← seq (i + 1) (length proteins - (i + 1));
  [(proteins !!! i, proteins !!! j)].

Definition display_ppi_network (interactions : list (string * string)) : io unit :=
  emit (st_subheader "Protein-Protein Interaction Network");;
  emit (st_pyplot (prod_map JStr JStr <$> interactions)).

(** [main]: [uniprot_id] is what the text input holds and [clicked] what
    the button returns.  The title is given without its leading emoji. *)
Definition main (uniprot_id : string) (clicked : bool) : io unit :=
  emit (st_title "Protein Data Retrieval and Analysis");;
  emit (st_text_input "Enter UniProt ID (e.g., P69905 for Hemoglobin alpha):");;
  emit (st_button "Retrieve Data");;
  when clicked
    (when (negb (String.eqb uniprot_id ""))
       (protein_data ← get_protein_data uniprot_id;
        when (negb (bool_decide (protein_data = ∅)))
          (display_protein_characteristics protein_data;;
           let ppi_network := get_ppi_network uniprot_id in
           display_ppi_network ppi_network))).

End Web.

End ASG01.

(** ** Second variant: app.py *)

Module App.

Definition loop_body (lines : list string) (i : nat) (line : string)
    (protein_data : gmap string value) : result (gmap string value) :=
  if startswith line "ID" then
    let fields := split_ws line in
    Ok (<["Name" := VStr (if bool_decide (2 ≤ length fields)%nat
                          then join " " (drop 1 fields)
                          else "Not available")]> protein_data)
  else if startswith line "SQ" && bool_decide (i + 1 < length lines)%nat then
    weight_line ← getitem lines (i + 1);
    weight ← getitem_last (split_ws weight_line);
    Ok (<["Weight" := VStr weight]> protein_data)
  else if startswith line "DE   RecName: Full=" then
    after ← getitem (split line "Full=") 1;
    function ← getitem (split after ";") 0;
    Ok (<["Function" := VStr function]> protein_data)
  else if startswith line "DR   SUPFAM" then
    structure ← getitem (split line ";") 1;
    Ok (<["Structure" := VStr structure]> protein_data)
  else if startswith line "FT   MOD_RES" then
    let parts := split_ws line in
    protein_data ←
      (if bool_decide (3 ≤ length parts)%nat then
         part ← getitem parts 2;
         n ← int part;
         Ok (<["Length" := VInt n]> protein_data)
       else Ok protein_data);
    let ptms := drop 1 (split line ";") in
    Ok (if bool_decide (ptms ≠ [])
        then <["PTMs" := VList (strip <$> ptms)]> protein_data
        else protein_data)
  else if startswith line "CC   -!- SUBCELLULAR LOCATION:" then
    after ← getitem (split line "CC   -!- SUBCELLULAR LOCATION:") 1;
    Ok (<["Subcellular Location" := VStr (strip after)]> protein_data)
  else if startswith line "DR   Reactome" then
    pathway ← getitem (split line ";") 1;
    Ok (<["Pathway" := VStr pathway]> protein_data)
  else if startswith line "DR   MIM" then
    disease ← getitem (split line ";") 1;
    Ok (<["Disease" := VStr disease]> protein_data)
  else if startswith line "DR   PDB" then
    pdb_id ← getitem (split line ";") 1;
    Ok (<["PDB_ID" := VStr (strip pdb_id)]> protein_data)
  else if startswith line "DR   AlphaFoldDB" then
    af_id ← getitem (split line ";") 1;
    Ok (<["AlphaFold_ID" := VStr (strip af_id)]> protein_data)
  else Ok protein_data.

Fixpoint for_loop (lines : list string) (i : nat) (rest : list string)
    (protein_data : gmap string value) : result (gmap string value) :=
  match rest with
  | [] => Ok protein_data
  | line :: rest' =>
      protein_data ← loop_body lines i line protein_data;
      for_loop lines (S i) rest' protein_data
  end.

Definition extract (uniprot_id : string) (lines : list string)
    : result (gmap string value) :=
  for_loop lines 0 lines {["ID" := VStr uniprot_id]}.

(** [entry.get(k)]: only a dict has the method. *)
Definition entry_get (entry : json) (k : string) : result json :=
  match entry with
  | JObj m => Ok (default JNull (m !! k))
  | _ => Raise AttributeError
  end.

(** [for entry in data] *)
Definition json_iter (data : json) : result (list json) :=
  match data with
  | JArr l => Ok l
  | JObj m => Ok (JStr <$> (map_to_list m).*1)
  | JStr s => Ok (JStr <$> chars s)
  | _ => Raise TypeError
  end.

(** The loop of [get_ppi_network] over the entries still to be read. *)
Fixpoint ppi_loop (entries : list json) (interactions : list (json * json))
    : result (list (json * json)) :=
  match entries with
  | [] => Ok interactions
  | entry :: entries' =>
      protein1 ← entry_get entry "preferredName_A";
      protein2 ← entry_get entry "preferredName_B";
      ppi_loop entries'
        (if json_truthy protein1 && json_truthy protein2
         then interactions ++ [(protein1, protein2)]
         else interactions)
  end.

(** Graph nodes must be hashable: lists and dicts are not. *)
Definition hashable (j : json) : bool :=
  match j with
  | JArr _ | JObj _ => false
  | _ => true
  end.

Section Web.
Variable web : url -> response.

Definition get_protein_data (uniprot_id : string) : io (gmap string value) :=
  emit (requests_get (UniProt uniprot_id));;
  let response := web (UniProt uniprot_id) in
  if negb (status_code response =? 200) then
    emit (st_error "Invalid UniProt ID or unable to fetch data.");;
    mret ∅
  else
    lift (extract uniprot_id (splitlines (text response))).

Definition get_ppi_network (uniprot_id : string) (species : Z) : io (list (json * json)) :=
  emit (requests_get (StringDB uniprot_id species));;
  let response := web (StringDB uniprot_id species) in
  if negb (status_code response =? 200) then
    emit (st_error "Failed to fetch PPI data from STRING DB.");;
    mret []
  else
    data ← lift (json_body response);
    entries ← lift (json_iter data);
    lift (ppi_loop entries []).

Definition display_ppi_network (interactions : list (json * json)) : io unit :=
  emit (st_subheader "Protein-Protein Interaction Network");;
  match interactions with
  | [] => emit (st_warning "No interactions found for this protein in STRING DB.")
  | _ =>
      if forallb (fun e => hashable e.1 && hashable e.2) interactions then
        emit (st_pyplot interactions);;
        emit (st_markdown interactions)
      else lift (Raise TypeError)
  end.

Definition display_structure (protein_data : gmap string value) : io unit :=
  emit (st_subheader "3D Structure Viewer");;
  let pdb_id := protein_data !! "PDB_ID" in
  let af_id := protein_data !! "AlphaFold_ID" in
  let viewer pdb_data := emit (st_html pdb_data) in
  if truthy_opt pdb_id then
    emit (st_write [Lit "Showing PDB structure: **"; FmtGet pdb_id; Lit "**"]);;
    emit (requests_get (RCSB pdb_id));;
    let pdb_data := text (web (RCSB pdb_id)) in
    viewer pdb_data
  else if truthy_opt af_id then
    emit (st_write [Lit "Showing AlphaFold predicted structure for UniProt ID: **";
                    FmtGet af_id; Lit "**"]);;
    emit (requests_get (AlphaFoldDB af_id));;
    let pdb_data := text (web (AlphaFoldDB af_id)) in
    viewer pdb_data
  else
    emit (st_warning "No PDB or AlphaFold structure available for this protein.").

Definition main (uniprot_id : string) (clicked : bool) : io unit :=
  emit (st_title "Protein Data Retrieval, Interaction Network & 3D Structure");;
  emit (st_text_input "Enter UniProt ID (e.g., P69905 for Hemoglobin alpha):");;
  emit (st_button "Retrieve Data");;
  when clicked
    (when (negb (String.eqb uniprot_id ""))
       (protein_data ← get_protein_data uniprot_id;
        when (negb (bool_decide (protein_data = ∅)))
          (display_protein_characteristics protein_data;;
           ppi_network ← get_ppi_network uniprot_id 9606;
           display_ppi_network ppi_network;;
           display_structure protein_data))).

End Web.

End App.

(** * Vocabulary of the properties *)

(** Both variants run the same loop around their own body. *)
Section Loop.
Context (body : list string -> nat -> string -> gmap string value ->
                result (gmap string value)).

Fixpoint loop (lines : list string) (i : nat) (rest : list string)
    (pd : gmap string value) : result (gmap string value) :=
  match rest with
  | [] => Ok pd
  | line :: rest' => pd' ← body lines i line pd; loop lines (S i) rest' pd'
  end.

End Loop.

(** The line prefixes the first variant tests for. *)
Definition prefixes : list string :=
  ["ID"; "SQ"; "DE   RecName: Full="; "DR   SUPFAM"; "FT   MOD_RES";
   "CC   -!- SUBCELLULAR LOCATION:"; "DR   Reactome"; "DR   MIM"].

Definition recognized (ps : list string) (line : string) : bool :=
  existsb (startswith line) ps.

(** The second variant tests for two more. *)
Definition App_prefixes : list string :=
  prefixes ++ ["DR   PDB"; "DR   AlphaFoldDB"].

(** The table of the data model: which line prefix produces which field. *)
Definition field_trigger : list (string * string) :=
  [("Name", "ID"); ("Weight", "SQ"); ("Function", "DE   RecName: Full=");
   ("Structure", "DR   SUPFAM"); ("Length", "FT   MOD_RES"); ("PTMs", "FT   MOD_RES");
   ("Subcellular Location", "CC   -!- SUBCELLULAR LOCATION:");
   ("Pathway", "DR   Reactome"); ("Disease", "DR   MIM")].

(** Some row of the table [tbl] makes [line] a trigger of the field [k]. *)
Definition triggers (tbl : list (string * string)) (k line : string) : bool :=
  existsb (fun row => String.eqb k row.1 && startswith line row.2) tbl.

(** A line without tokens: empty or made of whitespace only. *)
Fixpoint all_space (s : string) : bool :=
  match s with
  | EmptyString => true
  | String c s' => isspace c && all_space s'
  end.

(** What the cycle shows before anything is fetched. *)
Definition ASG01_prologue : list event :=
  [st_title "Protein Data Retrieval and Analysis";
   st_text_input "Enter UniProt ID (e.g., P69905 for Hemoglobin alpha):";
   st_button "Retrieve Data"].

Definition App_prologue : list event :=
  [st_title "Protein Data Retrieval, Interaction Network & 3D Structure";
   st_text_input "Enter UniProt ID (e.g., P69905 for Hemoglobin alpha):";
   st_button "Retrieve Data"].

(** The two name fields of an entry, as the loop reads them. *)
Definition read_edge (entry : json) : result (option (json * json)) :=
  protein1 ← App.entry_get entry "preferredName_A";
  protein2 ← App.entry_get entry "preferredName_B";
  Ok (if json_truthy protein1 && json_truthy protein2
      then Some (protein1, protein2) else None).

(** A name field as the interaction source sends it: a string, [null],
    or left out. *)
Definition name_field (m : gmap string json) (k : string) : Prop :=
  m !! k = None \/ m !! k = Some JNull \/ exists s, m !! k = Some (JStr s).

Definition interaction_record (entry : json) : Prop :=
  exists m, entry = JObj m /\
            name_field m "preferredName_A" /\ name_field m "preferredName_B".

(** The name under [k]: present and non-empty. *)
Definition name (entry : json) (k : string) : option string :=
  match entry with
  | JObj m =>
      match m !! k with
      | Some (JStr s) => if String.eqb s "" then None else Some s
      | _ => None
      end
  | _ => None
  end.

Definition edge_of (entry : json) : option (json * json) :=
  a ← name entry "preferredName_A";
  b ← name entry "preferredName_B";
  Some (JStr a, JStr b).

(** A record field holding a non-empty identifier, and its opposite: the
    key is missing or holds the empty string. *)
Definition has_id (protein_data : gmap string value) (k : string) : Prop :=
  exists s, protein_data !! k = Some (VStr s) /\ s <> "".

Definition no_id (protein_data : gmap string value) (k : string) : Prop :=
  protein_data !! k = None \/ protein_data !! k = Some (VStr "").

(** A server that answers every request with an empty page. *)
Definition empty_web (u : url) : response := Response 200 "" (Raise JSONDecodeError).

(** ** Shapes of the stored values *)

(** No character of [s] is whitespace. *)
Fixpoint no_space (s : string) : bool :=
  match s with
  | EmptyString => true
  | String c s' => negb (isspace c) && no_space s'
  end.

(** A whitespace-delimited token: not empty and free of whitespace. *)
Definition token (s : string) : Prop := s <> "" /\ no_space s = true.

Definition starts_space (s : string) : bool :=
  match s with
  | EmptyString => false
  | String c _ => isspace c
  end.

Fixpoint ends_space (s : string) : bool :=
  match s with
  | EmptyString => false
  | String c EmptyString => isspace c
  | String _ s' => ends_space s'
  end.

(** Neither the first nor the last character is whitespace. *)
Definition trimmed (s : string) : Prop :=
  starts_space s = false /\ ends_space s = false.

(** No occurrence of [sep] in [a +:+ tail] starts inside [a]. *)
Definition no_match_in (sep a tail : string) : Prop :=
  forall a1 c a2, a = a1 +:+ String c a2 ->
                  String.prefix sep (String c a2 +:+ tail) = false.

(** No character of [s] is a line boundary. *)
Fixpoint no_linebreak (s : string) : bool :=
  match s with
  | EmptyString => true
  | String c s' => negb (is_linebreak c) && no_linebreak s'
  end.

(** A run of the digits [0]..[9] and the number it writes in base ten. *)
Fixpoint all_digits (s : string) : bool :=
  match s with
  | EmptyString => true
  | String c s' => bool_decide (is_Some (digit c)) && all_digits s'
  end.

Fixpoint decimal_from (acc : Z) (s : string) : Z :=
  match s with
  | EmptyString => acc
  | String c s' => decimal_from (10 * acc + default 0 (digit c)) s'
  end.

Definition decimal (s : string) : Z := decimal_from 0 s.
(** The keys under which a string is stored; the second list is for the
    second variant. *)
Definition string_fields : list string :=
  ["ID"; "Name"; "Weight"; "Function"; "Structure"; "Subcellular Location";
   "Pathway"; "Disease"].

Definition App_string_fields : list string :=
  string_fields ++ ["PDB_ID"; "AlphaFold_ID"].

(** What an entry of the record looks like, given the string keys [ks]:
    a string under a string key (a token for [Weight], trimmed where the
    code strips, free of [;] where it is a [;]-field), an integer under
    [Length], a non-empty list of trimmed strings under [PTMs]. *)
Definition field_ok (ks : list string) (k : string) (v : value) : Prop :=
  match v with
  | VStr s =>
      k ∈ ks /\
      (k = "Weight" -> token s) /\
      (k ∈ ["Subcellular Location"; "PDB_ID"; "AlphaFold_ID"] -> trimmed s) /\
      (k ∈ ["Function"; "Structure"; "Pathway"; "Disease"] -> contains ";" s = false)
  | VInt _ => k = "Length"
  | VList l => k = "PTMs" /\ l <> [] /\ Forall trimmed l
  end.

(** The three cross-reference lines that store their second [;]-field as
    it is, with the key each stores under. *)
Definition verbatim_fields : list (string * string) :=
  [("DR   SUPFAM", "Structure"); ("DR   Reactome", "Pathway"); ("DR   MIM", "Disease")].

(** The characters an integer literal is made of, and a string with some
    other character in it. *)
Definition int_char (c : ascii) : bool :=
  bool_decide (is_Some (digit c)) || Ascii.eqb c "_" || Ascii.eqb c "+" || Ascii.eqb c "-".

Fixpoint has_other_char (s : string) : bool :=
  match s with
  | EmptyString => false
  | String c s' => negb (int_char c) || has_other_char s'
  end.

(** An entry of the interaction answer that is a JSON object. *)
Definition is_object (entry : json) : Prop := exists m, entry = JObj m.

(** How many [;] a string has. *)
Fixpoint count_semicolons (s : string) : nat :=
  match s with
  | EmptyString => 0
  | String c s' => (if Ascii.eqb c ";" then 1 else 0) + count_semicolons s'
  end.

(** Whether an entry of the interaction answer is a JSON object. *)
Definition is_obj (entry : json) : bool :=
  match entry with
  | JObj _ => true
  | _ => false
  end.

(** The value of the field [k] of an entry when the field is present and
    true in Python's sense (a non-empty string, a non-zero number, [true], a
    non-empty list or object). *)
Definition present (entry : json) (k : string) : option json :=
  match entry with
  | JObj m =>
      match m !! k with
      | Some v => if json_truthy v then Some v else None
      | None => None
      end
  | _ => None
  end.

Definition truthy_edge (entry : json) : option (json * json) :=
  a ← present entry "preferredName_A";
  b ← present entry "preferredName_B";
  Some (a, b).

(** A text made of lines, each followed by the line end [eol]. *)
Definition LF : string := String "010" "".
Definition CRLF : string := String "013" (String "010" "").

Fixpoint terminated (eol : string) (lines : list string) : string :=
  match lines with
  | [] => ""
  | line :: lines' => line +:+ eol +:+ terminated eol lines'
  end.

(** * Properties *)

(** ** Strings *)

Section StringFacts.

Lemma app_cons a s t : String a s +:+ t = String a (s +:+ t).
Proof. reflexivity. Qed.

Lemma app_snoc cur c s : snoc cur c +:+ s = cur +:+ String c s.
Proof.
  unfold snoc. induction cur as [|a cur IH]; [done |].
  rewrite !app_cons. by rewrite IH.
Qed.

Lemma app_empty_r s : s +:+ "" = s.
Proof. induction s as [|a s IH]; [done |]. rewrite app_cons. by rewrite IH. Qed.

(** A string that starts with [p] is [p] followed by something. *)
Lemma startswith_app s p : startswith s p = true -> exists r, s = p +:+ r.
Proof.
  unfold startswith. revert s. induction p as [|a p IH]; intros s H.
  - by exists s.
  - destruct s as [|b s]; simpl in H; [done |].
    destruct (ascii_dec a b) as [->|]; [| done].
    destruct (IH s H) as [r ->]. by exists r.
Qed.

Lemma contains_cons sub c s : contains sub (String c s) = false ->
  String.prefix sub (String c s) = false /\ contains sub s = false.
Proof. cbn [contains]. intros H. by apply orb_false_elim in H. Qed.

(** Without an occurrence of the separator nothing is cut. *)
Lemma split_go_absent sep cur s :
  contains sep s = false -> split_go sep 0 cur s = [cur +:+ s].
Proof.
  revert cur. induction s as [|c s IH]; intros cur H.
  - by rewrite app_empty_r.
  - apply contains_cons in H as [Hp Hc]. cbn [split_go]. rewrite Hp.
    rewrite (IH _ Hc). by rewrite app_snoc.
Qed.

Lemma split_absent s sep : contains sep s = false -> split s sep = [s].
Proof. intros H. unfold split. by rewrite split_go_absent. Qed.

(** A split always has a first piece. *)
Lemma split_go_nonempty sep k cur s : split_go sep k cur s <> [].
Proof.
  revert k cur. induction s as [|c s IH]; intros k cur; cbn [split_go]; [done |].
  destruct k; [| done]. by destruct (String.prefix sep (String c s)).
Qed.

Lemma split_head s sep : exists x l, split s sep = x :: l.
Proof.
  unfold split. pose proof (split_go_nonempty sep 0 "" s) as H.
  destruct (split_go sep 0 "" s) as [|x l]; [done | by exists x, l].
Qed.

(** The first cut is at the first occurrence: a piece before a separator
    that occurs later is closed there. *)
Lemma split_go_present sep cur s :
  sep <> "" -> contains sep s = true -> (1 < length (split_go sep 0 cur s))%nat.
Proof.
  intros Hsep. revert cur. induction s as [|c s IH]; intros cur H.
  - cbn in H. by destruct sep.
  - cbn [contains] in H. cbn [split_go].
    destruct (String.prefix sep (String c s)) eqn:Hp.
    + pose proof (split_go_nonempty sep (Nat.pred (String.length sep)) "" s) as Hn.
      destruct (split_go sep _ "" s); [done | simpl; lia].
    + simpl in H. by apply IH.
Qed.

Lemma prefix_app_self p r : String.prefix p (p +:+ r) = true.
Proof.
  induction p as [|a p IH]; [by destruct r |].
  rewrite app_cons. cbn [String.prefix]. by destruct (ascii_dec a a).
Qed.

Lemma startswith_self p r : startswith (p +:+ r) p = true.
Proof. apply prefix_app_self. Qed.

Lemma split_DE r :
  split ("DE   RecName: Full=" +:+ r) "Full=" =
    "DE   RecName: " :: split_go "Full=" 0 "" r.
Proof. by destruct r. Qed.

(** A line has no tokens exactly when it is blank. *)
Lemma split_ws_go_some t s : split_ws_go (Some t) s <> [].
Proof.
  revert t. induction s as [|c s IH]; intros t; cbn; [done |].
  destruct (isspace c); [done | apply IH].
Qed.

Lemma split_ws_blank s : split_ws s = [] <-> all_space s = true.
Proof.
  unfold split_ws. induction s as [|c s IH]; cbn; [done |].
  destruct (isspace c); cbn; [done |]. split; [| done].
  intros E. by apply split_ws_go_some in E.
Qed.

End StringFacts.

(** ** Loops over the lines *)

Section LoopFacts.
Context (body : list string -> nat -> string -> gmap string value ->
                result (gmap string value)).

Lemma loop_app lines i a b pd :
  loop body lines i (a ++ b) pd =
    pd' ← loop body lines i a pd; loop body lines (i + length a) b pd'.
Proof.
  revert i pd. induction a as [|x a IH]; intros i pd; cbn.
  - by rewrite Nat.add_0_r.
  - destruct (body lines i x pd) as [pd'|e]; cbn; [| done].
    rewrite IH. by replace (S i + length a)%nat with (i + S (length a))%nat by lia.
Qed.

(** A key that no remaining line writes keeps its entry. *)
Lemma loop_keep lines k rest :
  forall i pd r,
  (forall j line pd1 pd2, line ∈ rest -> body lines j line pd1 = Ok pd2 ->
                          pd2 !! k = pd1 !! k) ->
  loop body lines i rest pd = Ok r -> r !! k = pd !! k.
Proof.
  induction rest as [|x rest IH]; intros i pd r Hk H; cbn in H.
  - by injection H as <-.
  - destruct (body lines i x pd) as [pd'|e] eqn:Hb; cbn in H; [| done].
    rewrite (IH _ _ _ (fun j l p1 p2 Hl => Hk j l p1 p2 (list_elem_of_further _ _ _ Hl)) H).
    eapply Hk; [apply list_elem_of_here | done].
Qed.

(** Lines that leave the record alone can be dropped from the loop. *)
Lemma loop_skip lines rest :
  forall i pd,
  (forall j line pd1, line ∈ rest -> body lines j line pd1 = Ok pd1) ->
  loop body lines i rest pd = Ok pd.
Proof.
  induction rest as [|x rest IH]; intros i pd Hk; cbn; [done |].
  rewrite Hk by apply list_elem_of_here. cbn.
  apply IH. intros j l p1 Hl. apply Hk. by apply list_elem_of_further.
Qed.

(** Once a line raises, so does the loop: the exception is the first one. *)
Lemma loop_raises lines i pre line post pd :
  (forall pd1, exists e, body lines (i + length pre) line pd1 = Raise e) ->
  exists e, loop body lines i (pre ++ line :: post) pd = Raise e.
Proof.
  intros Hb. rewrite loop_app.
  destruct (loop body lines i pre pd) as [pd'|e]; cbn; [| by exists e].
  destruct (Hb pd') as [e ->]. by exists e.
Qed.

(** Every entry of the result was there before or comes from a line [P]
    accepts for its key. *)
Lemma loop_keys (P : string -> string -> Prop) lines rest :
  (forall j line pd1 pd2 k, body lines j line pd1 = Ok pd2 ->
                            pd2 !! k = pd1 !! k \/ P k line) ->
  forall i pd r k,
  loop body lines i rest pd = Ok r ->
  r !! k = pd !! k \/ exists line, line ∈ rest /\ P k line.
Proof.
  intros Hb. induction rest as [|x rest IH]; intros i pd r k H; cbn in H.
  - injection H as <-. by left.
  - destruct (body lines i x pd) as [pd'|e] eqn:Hx; cbn in H; [| done].
    destruct (IH _ _ _ k H) as [-> | (l & Hl & HP)].
    + destruct (Hb _ _ _ _ k Hx) as [-> | HP]; [by left |].
      right. exists x. split; [apply list_elem_of_here | done].
    + right. exists l. split; [by apply list_elem_of_further | done].
Qed.

(** The loop only sees [lines] through the body. *)
Lemma loop_ext lines lines' rest :
  forall i pd,
  (forall j line pd1, line ∈ rest -> body lines j line pd1 = body lines' j line pd1) ->
  loop body lines i rest pd = loop body lines' i rest pd.
Proof.
  induction rest as [|x rest IH]; intros i pd Hb; cbn; [done |].
  rewrite (Hb i x pd) by apply list_elem_of_here.
  destruct (body lines' i x pd) as [pd'|e]; cbn; [| done].
  apply IH. intros j l p1 Hl. apply Hb. by apply list_elem_of_further.
Qed.

Lemma loop_first_raise lines i pre line post pd pd1 e :
  loop body lines i pre pd = Ok pd1 ->
  body lines (i + length pre) line pd1 = Raise e ->
  loop body lines i (pre ++ line :: post) pd = Raise e.
Proof. intros H1 H2. rewrite loop_app, H1. cbn. by rewrite H2. Qed.

End LoopFacts.

Lemma ASG01_for_loop lines i rest pd :
  ASG01.for_loop lines i rest pd = loop ASG01.loop_body lines i rest pd.
Proof.
  revert i pd. induction rest as [|x rest IH]; intros i pd; cbn; [done |].
  destruct (ASG01.loop_body lines i x pd); cbn; [apply IH | done].
Qed.

Lemma App_for_loop lines i rest pd :
  App.for_loop lines i rest pd = loop App.loop_body lines i rest pd.
Proof.
  revert i pd. induction rest as [|x rest IH]; intros i pd; cbn; [done |].
  destruct (App.loop_body lines i x pd); cbn; [apply IH | done].
Qed.

(** ** The loop body, branch by branch *)

(** Replace a line known to start with a literal by that literal and a
    remainder, and decide every prefix test on it. *)
Ltac known_prefix H :=
  let r := fresh "r" in
  let E := fresh "E" in
  destruct (startswith_app _ _ H) as [r E]; subst.

Ltac decide_prefixes :=
  repeat match goal with
  | |- context [startswith ?s ?q] =>
      let b := eval vm_compute in (startswith s q) in
      lazymatch b with
      | true => change (startswith s q) with true
      | false => change (startswith s q) with false
      end
  end.

Ltac decide_branch := rewrite ?startswith_self; decide_prefixes; cbn [andb].
Ltac branch H := known_prefix H; decide_branch.

Lemma result_bind_Ok {A B} (m : result A) (f : A -> result B) b :
  m ≫= f = Ok b -> exists a, m = Ok a /\ f a = Ok b.
Proof. destruct m as [a|e]; cbn; [by exists a | done]. Qed.

(** In a branch that stores under a literal key, another key is untouched;
    the branch's own key is excluded by the trigger table. *)
Ltac other_key Ht :=
  repeat (rewrite lookup_insert_ne;
          [| by (intros <-; cbn in Ht;
                 repeat match goal with
                 | E : startswith _ _ = _ |- _ => rewrite E in Ht
                 end; cbn in Ht)]);
  done.

Ltac body_cases H :=
  repeat match type of H with
  | (if ?c then _ else _) = _ =>
      lazymatch c with
      | ?a && _ => destruct a eqn:?; cbn [andb] in H
      | _ => destruct c eqn:?
      end
  | (if ?c then _ else _) ≫= _ = _ => destruct c eqn:?
  | Ok (if ?c then _ else _) = _ => destruct c eqn:?
  | _ ≫= _ = Ok _ =>
      let a := fresh "a" in let Ha := fresh "Ha" in
      apply result_bind_Ok in H as (a & Ha & H); cbv beta in H
  end.

Module ASG01_facts.
Import ASG01.

Section Body.
Context (lines : list string) (i : nat) (line : string) (pd : gmap string value).

Lemma body_unrecognized :
  recognized prefixes line = false -> loop_body lines i line pd = Ok pd.
Proof.
  unfold recognized, prefixes. cbn [existsb]. intros H.
  repeat (apply orb_false_elim in H as [? H]).
  unfold loop_body. by repeat match goal with E : startswith _ _ = false |- _ => rewrite E; clear E end.
Qed.

Lemma body_ID :
  startswith line "ID" = true ->
  loop_body lines i line pd =
    Ok (<["Name" := VStr (if bool_decide (2 ≤ length (split_ws line))%nat
                          then join " " (drop 1 (split_ws line))
                          else "Not available")]> pd).
Proof. intros H. unfold loop_body. by rewrite H. Qed.

Lemma body_SQ_last :
  startswith line "SQ" = true -> (length lines ≤ i + 1)%nat ->
  loop_body lines i line pd = Ok pd.
Proof.
  intros H Hi. unfold loop_body. rewrite (bool_decide_eq_false_2 (i + 1 < length lines)%nat) by lia.
  by branch H.
Qed.

Lemma body_SQ w :
  startswith line "SQ" = true -> lines !! (i + 1)%nat = Some w ->
  loop_body lines i line pd =
    weight ← getitem_last (split_ws w); Ok (<["Weight" := VStr weight]> pd).
Proof.
  intros H Hw. unfold loop_body.
  rewrite (bool_decide_eq_true_2 (i + 1 < length lines)%nat) by (by eapply lookup_lt_Some).
  branch H. unfold getitem. by rewrite Hw.
Qed.

Lemma body_DE :
  startswith line "DE   RecName: Full=" = true ->
  exists function, loop_body lines i line pd = Ok (<["Function" := VStr function]> pd).
Proof.
  intros H. unfold loop_body. branch H.
  rewrite split_DE. pose proof (split_go_nonempty "Full=" 0 "" r) as Hne.
  destruct (split_go "Full=" 0 "" r) as [|after l]; [done |].
  cbn [getitem lookup list_lookup mbind result_bind Py.bind].
  destruct (split_head after ";") as (f & l' & ->). by exists f.
Qed.

Lemma body_DE_plain r :
  line = "DE   RecName: Full=" +:+ r ->
  contains "Full=" r = false -> contains ";" r = false ->
  loop_body lines i line pd = Ok (<["Function" := VStr r]> pd).
Proof.
  intros -> Hf Hs. unfold loop_body. decide_branch.
  rewrite split_DE. rewrite (split_go_absent _ _ _ Hf).
  cbn [getitem lookup list_lookup mbind result_bind Py.bind].
  change ("" +:+ r) with r. by rewrite (split_absent _ _ Hs).
Qed.

(** The three [DR] lines index the second [;]-field without a check. *)
Lemma body_DR_no_semicolon p :
  p ∈ ["DR   SUPFAM"; "DR   Reactome"; "DR   MIM"] ->
  startswith line p = true -> contains ";" line = false ->
  loop_body lines i line pd = Raise IndexError.
Proof.
  intros Hp H Hs. unfold loop_body. rewrite (split_absent _ _ Hs).
  repeat (apply elem_of_cons in Hp as [-> | Hp]); [| | | by apply elem_of_nil in Hp];
    by branch H.
Qed.

Lemma body_FT :
  startswith line "FT   MOD_RES" = true ->
  loop_body lines i line pd =
    protein_data ←
      (if bool_decide (3 ≤ length (split_ws line))%nat then
         part ← getitem (split_ws line) 2;
         n ← int part;
         Ok (<["Length" := VInt n]> pd)
       else Ok pd);
    Ok (if bool_decide (drop 1 (split line ";") ≠ [])
        then <["PTMs" := VList (strip <$> drop 1 (split line ";"))]> protein_data
        else protein_data).
Proof.
  intros H. unfold loop_body. by branch H.
Qed.

(** A field whose trigger the line is not keeps its entry. *)
Lemma body_keys k pd' :
  loop_body lines i line pd = Ok pd' ->
  triggers field_trigger k line = false -> pd' !! k = pd !! k.
Proof.
  intros H Ht. unfold triggers, field_trigger in Ht. unfold loop_body in H.
  body_cases H; injection H as <-; try done; try (by other_key Ht);
    body_cases Ha; injection Ha as <-; by other_key Ht.
Qed.

(** Only the [SQ] branch looks at the other lines. *)
Lemma body_lines_irrelevant lines' i' :
  startswith line "SQ" = false ->
  loop_body lines i line pd = loop_body lines' i' line pd.
Proof. intros H. unfold loop_body. by rewrite H. Qed.

End Body.
End ASG01_facts.

(** The second variant adds two branches at the end of the chain. *)
Module App_facts.

Section Body.
Context (lines : list string) (i : nat) (line : string) (pd : gmap string value).

Lemma body_agrees :
  startswith line "DR   PDB" = false -> startswith line "DR   AlphaFoldDB" = false ->
  App.loop_body lines i line pd = ASG01.loop_body lines i line pd.
Proof. intros H1 H2. unfold App.loop_body, ASG01.loop_body. by rewrite H1, H2. Qed.

Lemma body_SQ_app w :
  startswith line "SQ" = true -> lines !! (i + 1)%nat = Some w ->
  App.loop_body lines i line pd =
    weight ← getitem_last (split_ws w); Ok (<["Weight" := VStr weight]> pd).
Proof.
  intros H Hw. rewrite body_agrees.
  - by apply ASG01_facts.body_SQ.
  - by known_prefix H.
  - by known_prefix H.
Qed.

Lemma body_DR_no_semicolon_app p :
  p ∈ ["DR   SUPFAM"; "DR   Reactome"; "DR   MIM"; "DR   PDB"; "DR   AlphaFoldDB"] ->
  startswith line p = true -> contains ";" line = false ->
  App.loop_body lines i line pd = Raise IndexError.
Proof.
  intros Hp H Hs. unfold App.loop_body. rewrite (split_absent _ _ Hs).
  repeat (apply elem_of_cons in Hp as [-> | Hp]); [| | | | | by apply elem_of_nil in Hp];
    by branch H.
Qed.

Lemma body_DE_app :
  startswith line "DE   RecName: Full=" = true ->
  exists function, App.loop_body lines i line pd = Ok (<["Function" := VStr function]> pd).
Proof.
  intros H. rewrite body_agrees.
  - by apply ASG01_facts.body_DE.
  - by known_prefix H.
  - by known_prefix H.
Qed.

Lemma body_unrecognized_app :
  recognized App_prefixes line = false -> App.loop_body lines i line pd = Ok pd.
Proof.
  unfold recognized, App_prefixes, prefixes. cbn [existsb app]. intros H.
  repeat (apply orb_false_elim in H as [? H]).
  unfold App.loop_body.
  by repeat match goal with E : startswith _ _ = false |- _ => rewrite E; clear E end.
Qed.

End Body.
End App_facts.

(** ** The extractor of the first variant *)

Section Extractor.
Import ASG01 ASG01_facts.

Lemma triggers_ID line : triggers field_trigger "ID" line = false.
Proof. reflexivity. Qed.

Lemma extract_ID uniprot_id lines r :
  extract uniprot_id lines = Ok r -> r !! "ID" = Some (VStr uniprot_id).
Proof.
  unfold extract. rewrite ASG01_for_loop. intros H.
  rewrite (loop_keep _ _ "ID" _ _ _ _ (fun j l p1 p2 _ Hb =>
             body_keys _ _ _ _ _ _ Hb (triggers_ID l)) H).
  apply lookup_singleton_eq.
Qed.

Lemma extract_keys uniprot_id lines r k :
  extract uniprot_id lines = Ok r -> is_Some (r !! k) ->
  k = "ID" \/ exists line, line ∈ lines /\ triggers field_trigger k line = true.
Proof.
  unfold extract. rewrite ASG01_for_loop. intros H Hk.
  eapply (loop_keys _ (fun k l => triggers field_trigger k l = true)) in H as [Hr | Hr].
  - left. rewrite Hr in Hk. destruct (decide (k = "ID")) as [|Hne]; [done |].
    rewrite lookup_singleton_ne in Hk by done. by destruct Hk.
  - by right.
  - intros j l p1 p2 k' Hb.
    destruct (triggers field_trigger k' l) eqn:Ht; [by right | left].
    by eapply body_keys.
Qed.

Lemma extract_split uniprot_id pre line post r :
  let lines := pre ++ line :: post in
  extract uniprot_id lines = Ok r ->
  exists pd1 pd2,
    loop loop_body lines 0 pre {["ID" := VStr uniprot_id]} = Ok pd1 /\
    loop_body lines (length pre) line pd1 = Ok pd2 /\
    loop loop_body lines (S (length pre)) post pd2 = Ok r.
Proof.
  intros lines. unfold extract. rewrite ASG01_for_loop. fold lines.
  unfold lines at 2. rewrite loop_app. intros H.
  apply result_bind_Ok in H as (pd1 & H1 & H). cbn [loop] in H.
  apply result_bind_Ok in H as (pd2 & H2 & H). by exists pd1, pd2.
Qed.

Lemma triggers_Name line : triggers field_trigger "Name" line = startswith line "ID".
Proof. unfold triggers. cbn. by destruct (startswith line "ID"). Qed.

Lemma triggers_Weight line : triggers field_trigger "Weight" line = startswith line "SQ".
Proof. unfold triggers. cbn. by destruct (startswith line "SQ"). Qed.

Lemma triggers_Length line :
  triggers field_trigger "Length" line = startswith line "FT   MOD_RES".
Proof. unfold triggers. cbn. by destruct (startswith line "FT   MOD_RES"). Qed.

Lemma triggers_PTMs line :
  triggers field_trigger "PTMs" line = startswith line "FT   MOD_RES".
Proof. unfold triggers. cbn. by destruct (startswith line "FT   MOD_RES"). Qed.

(** The field [k] after the loop is the one the last triggering line left. *)
Lemma last_trigger_wins lines i post pd r k :
  Forall (fun l => triggers field_trigger k l = false) post ->
  loop loop_body lines i post pd = Ok r -> r !! k = pd !! k.
Proof.
  intros Hpost. apply loop_keep. intros j l p1 p2 Hl Hb.
  eapply body_keys; [done |]. by apply (proj1 (Forall_forall _ _) Hpost).
Qed.

(** What an [FT   MOD_RES] line stores, and when it stores nothing. *)
Lemma semicolon_fields line :
  contains ";" line = true -> drop 1 (split line ";") <> [].
Proof.
  intros H. pose proof (split_go_present ";" "" line ltac:(done) H) as Hl.
  unfold split. destruct (split_go ";" 0 "" line) as [|x [|y l]]; cbn in *; [lia | lia | done].
Qed.

Lemma no_semicolon_fields line :
  contains ";" line = false -> drop 1 (split line ";") = [].
Proof. intros H. by rewrite split_absent. Qed.

Lemma body_FT_Length lines i line pd pd' :
  startswith line "FT   MOD_RES" = true -> (3 ≤ length (split_ws line))%nat ->
  loop_body lines i line pd = Ok pd' ->
  exists part n, split_ws line !! 2%nat = Some part /\ int part = Ok n /\
                 pd' !! "Length" = Some (VInt n).
Proof.
  intros H Hlen Hb. rewrite body_FT in Hb by done.
  rewrite (bool_decide_eq_true_2 (3 ≤ length (split_ws line))%nat) in Hb by done.
  apply result_bind_Ok in Hb as (pd1 & H1 & Hb).
  apply result_bind_Ok in H1 as (part & Hpart & H1).
  apply result_bind_Ok in H1 as (n & Hn & H1).
  injection H1 as <-. injection Hb as <-. exists part, n.
  unfold getitem in Hpart. destruct (split_ws line !! 2%nat) as [x|]; [| done].
  injection Hpart as ->. split; [done |]. split; [done |].
  destruct (bool_decide _); [rewrite lookup_insert_ne by done |]; apply lookup_insert_eq.
Qed.

Lemma body_FT_PTMs lines i line pd pd' :
  startswith line "FT   MOD_RES" = true -> contains ";" line = true ->
  loop_body lines i line pd = Ok pd' ->
  pd' !! "PTMs" = Some (VList (strip <$> drop 1 (split line ";"))).
Proof.
  intros H Hs Hb. rewrite body_FT in Hb by done.
  rewrite (bool_decide_eq_true_2 (drop 1 (split line ";") ≠ [])) in Hb
    by (by apply semicolon_fields).
  apply result_bind_Ok in Hb as (pd1 & H1 & Hb).
  injection Hb as <-. apply lookup_insert_eq.
Qed.

Lemma body_keeps_Length lines i line pd pd' :
  startswith line "FT   MOD_RES" = false \/ (length (split_ws line) < 3)%nat ->
  loop_body lines i line pd = Ok pd' -> pd' !! "Length" = pd !! "Length".
Proof.
  intros [H | Hlen] Hb.
  - eapply body_keys; [done |]. by rewrite triggers_Length.
  - destruct (startswith line "FT   MOD_RES") eqn:H.
    + rewrite body_FT in Hb by done.
      rewrite (bool_decide_eq_false_2 (3 ≤ length (split_ws line))%nat) in Hb by lia.
      cbn in Hb. injection Hb as <-.
      destruct (bool_decide _); [by rewrite lookup_insert_ne |done].
    + eapply body_keys; [done |]. by rewrite triggers_Length.
Qed.

Lemma body_keeps_PTMs lines i line pd pd' :
  startswith line "FT   MOD_RES" = false \/ contains ";" line = false ->
  loop_body lines i line pd = Ok pd' -> pd' !! "PTMs" = pd !! "PTMs".
Proof.
  intros [H | Hs] Hb.
  - eapply body_keys; [done |]. by rewrite triggers_PTMs.
  - destruct (startswith line "FT   MOD_RES") eqn:H.
    + rewrite body_FT in Hb by done.
      apply result_bind_Ok in Hb as (pd1 & H1 & Hb).
      rewrite no_semicolon_fields in Hb by done. cbn in Hb. injection Hb as <-.
      destruct (bool_decide _); [| by injection H1 as <-].
      apply result_bind_Ok in H1 as (part & Hpart & H1).
      apply result_bind_Ok in H1 as (n & Hn & H1).
      injection H1 as <-. by rewrite lookup_insert_ne.
    + eapply body_keys; [done |]. by rewrite triggers_PTMs.
Qed.

End Extractor.

(** ** The trigger cycle *)

Section Cycle.
Context (web : url -> response) (uniprot_id : string).

Lemma io_bind_eq {A B} (m : io A) (k : A -> io B) :
  m ≫= k = match outcome m with
           | Ok a => IO (trace m ++ trace (k a)) (outcome (k a))
           | Raise e => IO (trace m) (Raise e)
           end.
Proof. reflexivity. Qed.

Lemma ASG01_get_protein_data_fetched :
  status_code (web (UniProt uniprot_id)) = 200 ->
  ASG01.get_protein_data web uniprot_id =
    IO [requests_get (UniProt uniprot_id)]
       (ASG01.extract uniprot_id (splitlines (text (web (UniProt uniprot_id))))).
Proof.
  intros H. unfold ASG01.get_protein_data. rewrite H. cbn.
  by destruct (ASG01.extract _ _).
Qed.

Lemma ASG01_get_protein_data_failed :
  status_code (web (UniProt uniprot_id)) <> 200 ->
  ASG01.get_protein_data web uniprot_id =
    IO [requests_get (UniProt uniprot_id);
        st_error "Invalid UniProt ID or unable to fetch data."] (Ok ∅).
Proof.
  intros H. unfold ASG01.get_protein_data.
  by rewrite (proj2 (Z.eqb_neq _ _) H).
Qed.

Lemma App_get_protein_data_fetched :
  status_code (web (UniProt uniprot_id)) = 200 ->
  App.get_protein_data web uniprot_id =
    IO [requests_get (UniProt uniprot_id)]
       (App.extract uniprot_id (splitlines (text (web (UniProt uniprot_id))))).
Proof.
  intros H. unfold App.get_protein_data. rewrite H. cbn.
  by destruct (App.extract _ _).
Qed.

Lemma App_get_protein_data_failed :
  status_code (web (UniProt uniprot_id)) <> 200 ->
  App.get_protein_data web uniprot_id =
    IO [requests_get (UniProt uniprot_id);
        st_error "Invalid UniProt ID or unable to fetch data."] (Ok ∅).
Proof.
  intros H. unfold App.get_protein_data.
  by rewrite (proj2 (Z.eqb_neq _ _) H).
Qed.

Lemma ASG01_main_clicked :
  uniprot_id <> "" ->
  ASG01.main web uniprot_id true =
    IO ASG01_prologue (Ok tt) ≫= fun _ =>
    protein_data ← ASG01.get_protein_data web uniprot_id;
    when (negb (bool_decide (protein_data = ∅)))
      (display_protein_characteristics protein_data;;
       ASG01.display_ppi_network (ASG01.get_ppi_network uniprot_id)).
Proof.
  intros H. unfold ASG01.main.
  rewrite (proj2 (String.eqb_neq _ _) H). cbn [negb when].
  rewrite !io_bind_eq. cbn [emit trace outcome app].
  by destruct (outcome _).
Qed.

Lemma App_main_clicked :
  uniprot_id <> "" ->
  App.main web uniprot_id true =
    IO App_prologue (Ok tt) ≫= fun _ =>
    protein_data ← App.get_protein_data web uniprot_id;
    when (negb (bool_decide (protein_data = ∅)))
      (display_protein_characteristics protein_data;;
       ppi_network ← App.get_ppi_network web uniprot_id 9606;
       App.display_ppi_network ppi_network;;
       App.display_structure web protein_data).
Proof.
  intros H. unfold App.main.
  rewrite (proj2 (String.eqb_neq _ _) H). cbn [negb when].
  rewrite !io_bind_eq. cbn [emit trace outcome app].
  by destruct (outcome _).
Qed.

(** A failed fetch ends the cycle after the error message. *)
Lemma ASG01_main_failed :
  uniprot_id <> "" -> status_code (web (UniProt uniprot_id)) <> 200 ->
  ASG01.main web uniprot_id true =
    IO (ASG01_prologue ++
        [requests_get (UniProt uniprot_id);
         st_error "Invalid UniProt ID or unable to fetch data."]) (Ok tt).
Proof.
  intros H Hs. rewrite ASG01_main_clicked by done.
  by rewrite ASG01_get_protein_data_failed.
Qed.

Lemma App_main_failed :
  uniprot_id <> "" -> status_code (web (UniProt uniprot_id)) <> 200 ->
  App.main web uniprot_id true =
    IO (App_prologue ++
        [requests_get (UniProt uniprot_id);
         st_error "Invalid UniProt ID or unable to fetch data."]) (Ok tt).
Proof.
  intros H Hs. rewrite App_main_clicked by done.
  by rewrite App_get_protein_data_failed.
Qed.

(** An exception of the extractor leaves [main]: nothing is displayed. *)
Lemma ASG01_main_raises e :
  uniprot_id <> "" -> status_code (web (UniProt uniprot_id)) = 200 ->
  ASG01.extract uniprot_id (splitlines (text (web (UniProt uniprot_id)))) = Raise e ->
  ASG01.main web uniprot_id true =
    IO (ASG01_prologue ++ [requests_get (UniProt uniprot_id)]) (Raise e).
Proof.
  intros H Hs He. rewrite ASG01_main_clicked by done.
  rewrite ASG01_get_protein_data_fetched by done. by rewrite He.
Qed.

Lemma App_main_raises e :
  uniprot_id <> "" -> status_code (web (UniProt uniprot_id)) = 200 ->
  App.extract uniprot_id (splitlines (text (web (UniProt uniprot_id)))) = Raise e ->
  App.main web uniprot_id true =
    IO (App_prologue ++ [requests_get (UniProt uniprot_id)]) (Raise e).
Proof.
  intros H Hs He. rewrite App_main_clicked by done.
  rewrite App_get_protein_data_fetched by done. by rewrite He.
Qed.

End Cycle.

(** ** The interaction network and the structure viewer *)

Section Network.

Lemma ppi_loop_objects entries :
  forall acc edges,
  mapM (fun e => match read_edge e with Ok o => Some o | Raise _ => None end) entries
    = Some edges ->
  App.ppi_loop entries acc = Ok (acc ++ omap id edges).
Proof.
  induction entries as [|entry entries IH]; intros acc edges H.
  - injection H as <-. cbn. by rewrite app_nil_r.
  - cbn [mapM] in H. unfold read_edge in H at 1.
    destruct entry as [| | | | | |m]; try done. cbn in H.
    destruct (mapM _ entries) as [es|] eqn:Hes; [| done].
    cbn in H. injection H as <-. cbn [App.ppi_loop App.entry_get].
    cbn [mbind result_bind Py.bind].
    rewrite (IH _ es eq_refl).
    destruct (json_truthy _ && json_truthy _); cbn; [by rewrite <- app_assoc | done].
Qed.

Lemma read_edge_record entry :
  interaction_record entry -> read_edge entry = Ok (edge_of entry).
Proof.
  intros (m & -> & HA & HB). unfold read_edge, edge_of, name. cbn.
  destruct HA as [-> | [-> | [a ->]]], HB as [-> | [-> | [b ->]]]; cbn;
    rewrite ?andb_false_r; try done;
    try (by destruct (String.eqb a "")).
  by destruct (String.eqb a ""), (String.eqb b "").
Qed.

Lemma ppi_loop_records entries :
  Forall interaction_record entries ->
  App.ppi_loop entries [] = Ok (omap edge_of entries).
Proof.
  intros H. rewrite (ppi_loop_objects entries [] (edge_of <$> entries)).
  - cbn. f_equal. induction entries as [|e es IH]; [done |]. cbn.
    apply Forall_cons in H as [_ H]. rewrite (IH H). by destruct (edge_of e).
  - induction H as [|e es He Hes IH]; [done |].
    cbn. rewrite (read_edge_record e He). by rewrite IH.
Qed.

Lemma edge_of_names entry a b :
  edge_of entry = Some (a, b) ->
  exists sa sb, a = JStr sa /\ b = JStr sb /\ sa <> "" /\ sb <> "" /\
    name entry "preferredName_A" = Some sa /\ name entry "preferredName_B" = Some sb.
Proof.
  unfold edge_of. intros H.
  destruct (name entry "preferredName_A") as [sa|] eqn:HA; [| done].
  destruct (name entry "preferredName_B") as [sb|] eqn:HB; [| done].
  cbn in H. injection H as <- <-. exists sa, sb.
  repeat split; try done.
  - unfold name in HA. destruct entry; try done.
    destruct (_ !! _) as [[]|]; try done.
    destruct (String.eqb s "") eqn:E; [done |]. injection HA as <-.
    by apply String.eqb_neq.
  - unfold name in HB. destruct entry; try done.
    destruct (_ !! _) as [[]|]; try done.
    destruct (String.eqb s "") eqn:E; [done |]. injection HB as <-.
    by apply String.eqb_neq.
Qed.

End Network.

Section Structure.
Context (web : url -> response) (protein_data : gmap string value).

Let pdb_id := protein_data !! "PDB_ID".
Let af_id := protein_data !! "AlphaFold_ID".

Lemma display_structure_PDB :
  truthy_opt pdb_id = true ->
  App.display_structure web protein_data =
    IO [st_subheader "3D Structure Viewer";
        st_write [Lit "Showing PDB structure: **"; FmtGet pdb_id; Lit "**"];
        requests_get (RCSB pdb_id);
        st_html (text (web (RCSB pdb_id)))] (Ok tt).
Proof. intros H. unfold App.display_structure. fold pdb_id. by rewrite H. Qed.

Lemma display_structure_AlphaFold :
  truthy_opt pdb_id = false -> truthy_opt af_id = true ->
  App.display_structure web protein_data =
    IO [st_subheader "3D Structure Viewer";
        st_write [Lit "Showing AlphaFold predicted structure for UniProt ID: **";
                  FmtGet af_id; Lit "**"];
        requests_get (AlphaFoldDB af_id);
        st_html (text (web (AlphaFoldDB af_id)))] (Ok tt).
Proof.
  intros H1 H2. unfold App.display_structure. fold pdb_id af_id. by rewrite H1, H2.
Qed.

Lemma display_structure_none :
  truthy_opt pdb_id = false -> truthy_opt af_id = false ->
  App.display_structure web protein_data =
    IO [st_subheader "3D Structure Viewer";
        st_warning "No PDB or AlphaFold structure available for this protein."] (Ok tt).
Proof.
  intros H1 H2. unfold App.display_structure. fold pdb_id af_id. by rewrite H1, H2.
Qed.

End Structure.

(** ** The second variant and the examples of the specification *)

Lemma app_unrecognized_lines uniprot_id lines :
  Forall (fun line => recognized App_prefixes line = false) lines ->
  App.extract uniprot_id lines = Ok {["ID" := VStr uniprot_id]}.
Proof.
  intros H. unfold App.extract. rewrite App_for_loop.
  apply loop_skip. intros j l p1 Hl.
  apply App_facts.body_unrecognized_app.
  by apply (proj1 (Forall_forall _ _) H).
Qed.

(** In the second variant the two structure cross-references index the
    second [;]-field without a check as well. *)
Lemma app_missing_semicolon uniprot_id pre post line p :
  p ∈ ["DR   SUPFAM"; "DR   Reactome"; "DR   MIM"; "DR   PDB"; "DR   AlphaFoldDB"] ->
  startswith line p = true -> contains ";" line = false ->
  exists e, App.extract uniprot_id (pre ++ line :: post) = Raise e.
Proof.
  intros Hp H Hs. unfold App.extract. rewrite App_for_loop.
  apply loop_raises. intros pd1. exists IndexError.
  by eapply App_facts.body_DR_no_semicolon_app.
Qed.

Example Weight_of_the_line_after_SQ :
  ASG01.extract "P69905"
    ["SQ   SEQUENCE   142 AA;  15258 MW;  15E13666573BBBAE CRC64;";
     "     MVLSPADKTN VKAAWGKVGA  61 AA;  15126 MW;"]
  = Ok (<["Weight" := VStr "MW;"]> {["ID" := VStr "P69905"]}).
Proof. vm_compute. reflexivity. Qed.

Example Function_of_RecName :
  ASG01.extract "P69905" ["DE   RecName: Full=Hemoglobin subunit alpha;"]
  = Ok (<["Function" := VStr "Hemoglobin subunit alpha"]> {["ID" := VStr "P69905"]}).
Proof. vm_compute. reflexivity. Qed.

Example every_branch_once :
  ASG01.extract "P69905"
    ["ID   HBA_HUMAN Reviewed; 142 AA.";
     "DE   RecName: Full=Hemoglobin subunit alpha;";
     "CC   -!- SUBCELLULAR LOCATION: Cytoplasm.";
     "DR   Reactome; R-HSA-1237044; Erythrocytes take up carbon dioxide.";
     "DR   MIM; 141800; gene.";
     "DR   SUPFAM; SSF46458; Globin-like; 1.";
     "FT   MOD_RES 4 ; Phosphoserine";
     "SQ   SEQUENCE   142 AA;  15258 MW;";
     "     MVLSPADKTN  15126 MW"]
  = Ok (<["Weight" := VStr "MW"]>
       (<["PTMs" := VList ["Phosphoserine"]]>
       (<["Length" := VInt 4]>
       (<["Structure" := VStr " SSF46458"]>
       (<["Disease" := VStr " 141800"]>
       (<["Pathway" := VStr " R-HSA-1237044"]>
       (<["Subcellular Location" := VStr "Cytoplasm."]>
       (<["Function" := VStr "Hemoglobin subunit alpha"]>
       (<["Name" := VStr "HBA_HUMAN Reviewed; 142 AA."]>
         {["ID" := VStr "P69905"]}))))))))).
Proof. vm_compute. reflexivity. Qed.

Example lines_of_a_record :
  splitlines ("ID   HBA_HUMAN" +:+ String "013" (String "010" "AC   P69905;")
              +:+ String "010" "//" +:+ String "010" "")
  = ["ID   HBA_HUMAN"; "AC   P69905;"; "//"].
Proof. reflexivity. Qed.

(** * The claims *)

(** C3. For every identifier and every sequence of lines none of which
    starts with a recognized prefix, the extractor returns the record whose
    only key is [ID], mapped to the identifier. *)
Theorem unrecognized_lines_give_only_ID (uniprot_id : string) (lines : list string) :
  Forall (fun line => recognized prefixes line = false) lines ->
  ASG01.extract uniprot_id lines = Ok {["ID" := VStr uniprot_id]}.
Proof.
  intros H. unfold ASG01.extract. rewrite ASG01_for_loop.
  apply loop_skip. intros j l p1 Hl.
  apply ASG01_facts.body_unrecognized.
  by apply (proj1 (Forall_forall _ _) H).
Qed.

Lemma unrecognized_lines_give_only_ID_witness :
  ASG01.extract "P69905" ["AC   P69905;"; "DT   21-JUL-1986"; ""; "//"]
    = Ok {["ID" := VStr "P69905"]}.
Proof. apply unrecognized_lines_give_only_ID. by repeat constructor. Defined.

(** C4. The record the extractor returns has the key [ID]; any other key in
    it is a field of the data model's table for which some line of the input
    starts with the field's trigger prefix.  A field no line triggers is
    absent: its key has no entry (and a [value] is never a null). *)
Theorem absent_fields_are_absent_keys (uniprot_id : string) (lines : list string)
    (r : gmap string value) :
  ASG01.extract uniprot_id lines = Ok r ->
  r !! "ID" = Some (VStr uniprot_id) /\
  (forall k, is_Some (r !! k) ->
     k = "ID" \/ exists line, line ∈ lines /\ triggers field_trigger k line = true) /\
  (forall k, k <> "ID" ->
     Forall (fun line => triggers field_trigger k line = false) lines -> r !! k = None).
Proof.
  intros H. split; [by eapply extract_ID |]. split; [intros k; by eapply extract_keys |].
  intros k Hk Hno. destruct (r !! k) as [v|] eqn:Hr; [| done].
  destruct (extract_keys _ _ _ k H) as [-> | (l & Hl & Ht)]; [by rewrite Hr | done |].
  rewrite (proj1 (Forall_forall _ _) Hno l Hl) in Ht. done.
Qed.

Lemma absent_fields_are_absent_keys_witness :
  let r : gmap string value :=
    <["Name" := VStr "HBA_HUMAN Reviewed;"]> {["ID" := VStr "P69905"]} in
  ASG01.extract "P69905" ["ID   HBA_HUMAN Reviewed;"; "AC   P69905;"] = Ok r /\
  r !! "ID" = Some (VStr "P69905") /\ r !! "Weight" = None.
Proof.
  intros r.
  assert (ASG01.extract "P69905" ["ID   HBA_HUMAN Reviewed;"; "AC   P69905;"] = Ok r) as E
    by (vm_compute; reflexivity).
  destruct (absent_fields_are_absent_keys _ _ _ E) as (HID & _ & Habsent).
  split; [exact E |]. split; [exact HID |].
  apply Habsent; [discriminate |]. repeat constructor.
Defined.

(** C6. When the last line starts with [SQ], the lookahead is guarded:
    that line leaves the record as it is and raises nothing.  With no
    earlier [SQ] line, the result is the one of the input without its last
    line, and a record returned has no [Weight] key. *)
Theorem final_SQ_line_is_guarded (uniprot_id : string) (pre : list string) (sq : string) :
  startswith sq "SQ" = true ->
  let lines := pre ++ [sq] in
  (forall pd, ASG01.for_loop lines (length pre) [sq] pd = Ok pd) /\
  (Forall (fun l => startswith l "SQ" = false) pre ->
     ASG01.extract uniprot_id lines = ASG01.extract uniprot_id pre /\
     forall r, ASG01.extract uniprot_id lines = Ok r -> r !! "Weight" = None).
Proof.
  intros H lines.
  assert (forall pd, ASG01.for_loop lines (length pre) [sq] pd = Ok pd) as Hlast.
  { intros pd. cbn [ASG01.for_loop].
    rewrite ASG01_facts.body_SQ_last; [done | done |].
    subst lines. rewrite length_app. cbn. lia. }
  split; [done |]. intros Hpre.
  assert (ASG01.extract uniprot_id lines = ASG01.extract uniprot_id pre) as Heq.
  { unfold ASG01.extract. rewrite (ASG01_for_loop pre), (ASG01_for_loop lines).
    unfold lines at 2. rewrite loop_app. rewrite Nat.add_0_l.
    rewrite (loop_ext _ lines pre pre).
    - destruct (loop ASG01.loop_body pre 0 pre _) as [pd|e]; cbn [mbind result_bind Py.bind]; [| done].
      rewrite <- ASG01_for_loop. apply Hlast.
    - intros j l p1 Hl. apply ASG01_facts.body_lines_irrelevant.
      by apply (proj1 (Forall_forall _ _) Hpre). }
  split; [done |]. rewrite Heq. intros r Hr.
  unfold ASG01.extract in Hr. rewrite ASG01_for_loop in Hr.
  assert (Forall (fun l => triggers field_trigger "Weight" l = false) pre) as Hf.
  { eapply Forall_impl; [done |]. intros l Hl. by rewrite triggers_Weight. }
  rewrite (last_trigger_wins _ _ _ _ _ _ Hf Hr). by apply lookup_singleton_ne.
Qed.

Lemma final_SQ_line_is_guarded_witness :
  ASG01.extract "P69905" ["ID   HBA_HUMAN"; "SQ   SEQUENCE   141 AA;"] =
    Ok (<["Name" := VStr "HBA_HUMAN"]> {["ID" := VStr "P69905"]}).
Proof.
  destruct (final_SQ_line_is_guarded "P69905" ["ID   HBA_HUMAN"]
              "SQ   SEQUENCE   141 AA;" eq_refl) as [_ H].
  destruct H as [-> _]; [repeat constructor |]. vm_compute. reflexivity.
Defined.

(** C9. The guard at the end of the input is the only one on the
    lookahead: when an [SQ] line is followed by a line without tokens (empty
    or made of whitespace), the step at the [SQ] line raises [IndexError],
    whatever the record so far.
    So the extractor returns no record; the exception it raises is this
    [IndexError] whenever the lines before the [SQ] line raise none.  Both
    variants behave so. *)
Theorem SQ_before_blank_line_raises (uniprot_id : string) (pre post : list string)
    (sq blank : string) :
  startswith sq "SQ" = true -> all_space blank = true ->
  let lines := pre ++ sq :: blank :: post in
  let pd0 : gmap string value := {["ID" := VStr uniprot_id]} in
  ((forall pd, ASG01.loop_body lines (length pre) sq pd = Raise IndexError) /\
   (exists e, ASG01.extract uniprot_id lines = Raise e) /\
   (forall pd, ASG01.for_loop lines 0 pre pd0 = Ok pd ->
      ASG01.extract uniprot_id lines = Raise IndexError)) /\
  ((forall pd, App.loop_body lines (length pre) sq pd = Raise IndexError) /\
   (exists e, App.extract uniprot_id lines = Raise e) /\
   (forall pd, App.for_loop lines 0 pre pd0 = Ok pd ->
      App.extract uniprot_id lines = Raise IndexError)).
Proof.
  intros H Hb lines pd0. apply split_ws_blank in Hb.
  assert (lines !! (length pre + 1)%nat = Some blank) as Hnext.
  { subst lines. rewrite lookup_app_r by lia.
    by replace (length pre + 1 - length pre)%nat with 1%nat by lia. }
  assert (forall pd, ASG01.loop_body lines (length pre) sq pd = Raise IndexError) as H1.
  { intros pd. rewrite (ASG01_facts.body_SQ _ _ _ _ blank) by done. by rewrite Hb. }
  assert (forall pd, App.loop_body lines (length pre) sq pd = Raise IndexError) as H2.
  { intros pd. rewrite (App_facts.body_SQ_app _ _ _ _ blank) by done. by rewrite Hb. }
  split; (split; [done |]); split.
  - unfold ASG01.extract. rewrite ASG01_for_loop. apply loop_raises.
    intros pd1. by exists IndexError.
  - intros pd Hpre. unfold ASG01.extract. rewrite ASG01_for_loop in *.
    eapply loop_first_raise; [exact Hpre | apply H1].
  - unfold App.extract. rewrite App_for_loop. apply loop_raises.
    intros pd1. by exists IndexError.
  - intros pd Hpre. unfold App.extract. rewrite App_for_loop in *.
    eapply loop_first_raise; [exact Hpre | apply H2].
Qed.

Lemma SQ_before_blank_line_raises_witness :
  ASG01.extract "P69905" ["ID   HBA_HUMAN"; "SQ   SEQUENCE   141 AA;"; "   "; "//"]
    = Raise IndexError /\
  App.extract "P69905" ["ID   HBA_HUMAN"; "SQ   SEQUENCE   141 AA;"; "   "; "//"]
    = Raise IndexError.
Proof.
  destruct (SQ_before_blank_line_raises "P69905" ["ID   HBA_HUMAN"] ["//"]
              "SQ   SEQUENCE   141 AA;" "   " eq_refl eq_refl)
    as [(_ & _ & H1) (_ & _ & H2)].
  split; [eapply H1 | eapply H2]; vm_compute; reflexivity.
Defined.

(** C2, as the code has it.  Of several [FT   MOD_RES] lines, [Length] is
    the integer of the third token of the last one that has at least three
    tokens, and [PTMs] the trimmed [;]-fields after the first of the last
    one that contains a [;]: a line stores a field only when it has it, and
    then replaces what earlier lines stored. *)
Theorem last_MOD_RES_value_wins (uniprot_id : string) (pre post : list string)
    (line : string) (r : gmap string value) :
  startswith line "FT   MOD_RES" = true ->
  ASG01.extract uniprot_id (pre ++ line :: post) = Ok r ->
  ((3 ≤ length (split_ws line))%nat ->
   Forall (fun l => startswith l "FT   MOD_RES" = false \/
                    (length (split_ws l) < 3)%nat) post ->
   exists part n, split_ws line !! 2%nat = Some part /\ int part = Ok n /\
                  r !! "Length" = Some (VInt n)) /\
  (contains ";" line = true ->
   Forall (fun l => startswith l "FT   MOD_RES" = false \/
                    contains ";" l = false) post ->
   r !! "PTMs" = Some (VList (strip <$> drop 1 (split line ";")))).
Proof.
  intros H Hr. apply extract_split in Hr as (pd1 & pd2 & _ & H2 & H3). split.
  - intros Hlen Hpost.
    destruct (body_FT_Length _ _ _ _ _ H Hlen H2) as (part & n & Hp & Hn & Hl).
    exists part, n. split; [done |]. split; [done |]. rewrite <- Hl.
    eapply loop_keep; [| exact H3]. intros j l p1 p2 Hin Hb.
    eapply body_keeps_Length; [| done]. by apply (proj1 (Forall_forall _ _) Hpost).
  - intros Hs Hpost. rewrite <- (body_FT_PTMs _ _ _ _ _ H Hs H2).
    eapply loop_keep; [| exact H3]. intros j l p1 p2 Hin Hb.
    eapply body_keeps_PTMs; [| done]. by apply (proj1 (Forall_forall _ _) Hpost).
Qed.

Lemma last_MOD_RES_value_wins_witness :
  let r : gmap string value :=
    <["PTMs" := VList ["N6-acetyllysine"; "alternate"]]>
      (<["Length" := VInt 9]> {["ID" := VStr "P69905"]}) in
  ASG01.extract "P69905" ["FT   MOD_RES 4 ; Phosphoserine";
                          "FT   MOD_RES 9 ; N6-acetyllysine ; alternate"; "//"] = Ok r /\
  r !! "PTMs" = Some (VList ["N6-acetyllysine"; "alternate"]).
Proof.
  intros r.
  assert (ASG01.extract "P69905"
            (["FT   MOD_RES 4 ; Phosphoserine"] ++
             "FT   MOD_RES 9 ; N6-acetyllysine ; alternate" :: ["//"]) = Ok r) as E
    by (vm_compute; reflexivity).
  split; [exact E |].
  apply (proj2 (last_MOD_RES_value_wins "P69905" ["FT   MOD_RES 4 ; Phosphoserine"] ["//"]
                  "FT   MOD_RES 9 ; N6-acetyllysine ; alternate" r eq_refl E));
    [reflexivity |].
  repeat constructor.
Defined.

(** C1, as the code has it.  A [DR   SUPFAM], [DR   Reactome] or [DR   MIM]
    line without a [;] makes its step raise [IndexError]: the extractor
    returns no record (the exception is this [IndexError] when the lines
    before raise none), and when this is the record fetched the exception
    leaves [main] with nothing displayed.  A [DE   RecName: Full=] line raises nothing, with or
    without a [;]: without one (and without a second [Full=]) [Function] is
    the whole text after [Full=]. *)
Theorem missing_semicolon_raises (web : url -> response) (uniprot_id : string)
    (pre post : list string) (line p : string) :
  p ∈ ["DR   SUPFAM"; "DR   Reactome"; "DR   MIM"] ->
  startswith line p = true -> contains ";" line = false ->
  let lines := pre ++ line :: post in
  let pd0 : gmap string value := {["ID" := VStr uniprot_id]} in
  (forall pd, ASG01.loop_body lines (length pre) line pd = Raise IndexError) /\
  (forall pd, ASG01.for_loop lines 0 pre pd0 = Ok pd ->
     ASG01.extract uniprot_id lines = Raise IndexError) /\
  (exists e, ASG01.extract uniprot_id lines = Raise e /\
     (uniprot_id <> "" -> status_code (web (UniProt uniprot_id)) = 200 ->
      splitlines (text (web (UniProt uniprot_id))) = lines ->
      ASG01.main web uniprot_id true =
        IO (ASG01_prologue ++ [requests_get (UniProt uniprot_id)]) (Raise e))) /\
  (forall ls i pd r,
     contains "Full=" r = false -> contains ";" r = false ->
     ASG01.loop_body ls i ("DE   RecName: Full=" +:+ r) pd =
       Ok (<["Function" := VStr r]> pd)) /\
  (forall ls i pd l, startswith l "DE   RecName: Full=" = true ->
     exists function, ASG01.loop_body ls i l pd = Ok (<["Function" := VStr function]> pd)).
Proof.
  intros Hp H Hs lines pd0.
  assert (forall pd, ASG01.loop_body lines (length pre) line pd = Raise IndexError) as Hb
    by (intros pd; by eapply ASG01_facts.body_DR_no_semicolon).
  split; [done |]. split; [| split; [| split]].
  - intros pd Hpre. unfold ASG01.extract. rewrite ASG01_for_loop in *.
    eapply loop_first_raise; [exact Hpre | apply Hb].
  - destruct (loop_raises ASG01.loop_body lines 0 pre line post pd0) as [e He].
    { intros pd1. by exists IndexError. }
    exists e. unfold ASG01.extract. rewrite ASG01_for_loop. split; [done |].
    intros Hid Hst Hl. apply ASG01_main_raises; [done | done |].
    rewrite Hl. unfold ASG01.extract. by rewrite ASG01_for_loop.
  - intros ls i pd r Hf Hsr. by eapply ASG01_facts.body_DE_plain.
  - intros ls i pd l Hl. by apply ASG01_facts.body_DE.
Qed.

Lemma missing_semicolon_raises_witness :
  ASG01.extract "P69905" ["ID   HBA_HUMAN"; "DR   SUPFAM SSF46458"; "//"] = Raise IndexError.
Proof.
  destruct (missing_semicolon_raises (fun _ => Response 200 "" (Raise JSONDecodeError))
              "P69905" ["ID   HBA_HUMAN"] ["//"] "DR   SUPFAM SSF46458" "DR   SUPFAM"
              (list_elem_of_here _ _) eq_refl eq_refl) as (_ & H & _).
  eapply H. vm_compute. reflexivity.
Defined.

(** C1 fails on a [DE   RecName: Full=] line without [;]: no exception,
    and the field is stored. *)
Lemma DE_line_without_semicolon_is_accepted :
  let line := "DE   RecName: Full=Hemoglobin subunit alpha" in
  startswith line "DE   RecName: Full=" = true /\ contains ";" line = false /\
  ASG01.extract "P69905" [line] =
    Ok (<["Function" := VStr "Hemoglobin subunit alpha"]> {["ID" := VStr "P69905"]}).
Proof. repeat split; vm_compute; reflexivity. Qed.

(** C2 fails when the last [FT   MOD_RES] line has no third token and no
    [;]: the values of the earlier line stay in the record. *)
Lemma earlier_MOD_RES_values_survive :
  let last_line := "FT   MOD_RES" in
  split_ws last_line !! 2%nat = None /\ drop 1 (split last_line ";") = [] /\
  ASG01.extract "P69905" ["FT   MOD_RES 1 ; Phosphoserine"; last_line] =
    Ok (<["PTMs" := VList ["Phosphoserine"]]>
         (<["Length" := VInt 1]> {["ID" := VStr "P69905"]})).
Proof. repeat split; vm_compute; reflexivity. Qed.

(** C7. When the record fetch answers with a status other than 200,
    [get_protein_data] shows an error and returns the empty record, and the
    cycle ends there: no characteristics, no network, no structure, no
    further request.  Both variants behave so. *)
Theorem failed_fetch_ends_cycle (web : url -> response) (uniprot_id : string) :
  status_code (web (UniProt uniprot_id)) <> 200 ->
  let shown := [requests_get (UniProt uniprot_id);
                st_error "Invalid UniProt ID or unable to fetch data."] in
  (ASG01.get_protein_data web uniprot_id = IO shown (Ok ∅) /\
   (uniprot_id <> "" ->
    ASG01.main web uniprot_id true = IO (ASG01_prologue ++ shown) (Ok tt))) /\
  (App.get_protein_data web uniprot_id = IO shown (Ok ∅) /\
   (uniprot_id <> "" ->
    App.main web uniprot_id true = IO (App_prologue ++ shown) (Ok tt))).
Proof.
  intros H shown. split; split.
  - by apply ASG01_get_protein_data_failed.
  - intros Hid. by apply ASG01_main_failed.
  - by apply App_get_protein_data_failed.
  - intros Hid. by apply App_main_failed.
Qed.

Lemma failed_fetch_ends_cycle_witness :
  let web := fun _ : url => Response 404 "" (Raise JSONDecodeError) in
  ASG01.main web "P69905" true =
    IO (ASG01_prologue ++
        [requests_get (UniProt "P69905");
         st_error "Invalid UniProt ID or unable to fetch data."]) (Ok tt) /\
  App.main web "P69905" true =
    IO (App_prologue ++
        [requests_get (UniProt "P69905");
         st_error "Invalid UniProt ID or unable to fetch data."]) (Ok tt).
Proof.
  intros web.
  destruct (failed_fetch_ends_cycle web "P69905") as [[_ H1] [_ H2]]; [discriminate |].
  split; [apply H1 | apply H2]; discriminate.
Defined.

Lemma has_id_truthy pd k : has_id pd k -> truthy_opt (pd !! k) = true.
Proof.
  intros (s & -> & Hs). cbn. by rewrite (proj2 (String.eqb_neq _ _) Hs).
Qed.

Lemma no_id_falsy pd k : no_id pd k -> truthy_opt (pd !! k) = false.
Proof. by intros [-> | ->]. Qed.

(** C8, as the code has it.  The structure-database endpoint, keyed by
    [PDB_ID], is used when the record holds a non-empty [PDB_ID], whatever
    [AlphaFold_ID] is; the predicted-structure endpoint when [PDB_ID] is
    missing or empty and [AlphaFold_ID] is non-empty, and only then; when
    both are missing or empty a warning is shown and nothing is fetched or
    rendered. *)
Theorem structure_endpoint_precedence (web : url -> response)
    (protein_data : gmap string value) :
  let pdb_id := protein_data !! "PDB_ID" in
  let af_id := protein_data !! "AlphaFold_ID" in
  let shown := trace (App.display_structure web protein_data) in
  (has_id protein_data "PDB_ID" ->
   App.display_structure web protein_data =
     IO [st_subheader "3D Structure Viewer";
         st_write [Lit "Showing PDB structure: **"; FmtGet pdb_id; Lit "**"];
         requests_get (RCSB pdb_id);
         st_html (text (web (RCSB pdb_id)))] (Ok tt)) /\
  (no_id protein_data "PDB_ID" -> has_id protein_data "AlphaFold_ID" ->
   App.display_structure web protein_data =
     IO [st_subheader "3D Structure Viewer";
         st_write [Lit "Showing AlphaFold predicted structure for UniProt ID: **";
                   FmtGet af_id; Lit "**"];
         requests_get (AlphaFoldDB af_id);
         st_html (text (web (AlphaFoldDB af_id)))] (Ok tt)) /\
  (no_id protein_data "PDB_ID" -> no_id protein_data "AlphaFold_ID" ->
   App.display_structure web protein_data =
     IO [st_subheader "3D Structure Viewer";
         st_warning "No PDB or AlphaFold structure available for this protein."]
        (Ok tt)) /\
  (forall id, requests_get (AlphaFoldDB id) ∈ shown ->
     truthy_opt pdb_id = false /\ truthy_opt af_id = true /\ id = af_id).
Proof.
  intros pdb_id af_id shown. repeat split.
  - intros H. by apply display_structure_PDB, has_id_truthy.
  - intros H1 H2. by apply display_structure_AlphaFold; [apply no_id_falsy | apply has_id_truthy].
  - intros H1 H2. by apply display_structure_none; apply no_id_falsy.
  - subst shown. destruct (truthy_opt pdb_id) eqn:H1; [| done].
    rewrite display_structure_PDB in H by done. cbn in H.
    repeat (apply elem_of_cons in H as [H | H]; [done |]). by apply elem_of_nil in H.
  - subst shown. destruct (truthy_opt pdb_id) eqn:H1.
    { rewrite display_structure_PDB in H by done. cbn in H.
      repeat (apply elem_of_cons in H as [H | H]; [done |]). by apply elem_of_nil in H. }
    destruct (truthy_opt af_id) eqn:H2; [done |].
    rewrite display_structure_none in H by done. cbn in H.
    repeat (apply elem_of_cons in H as [H | H]; [done |]). by apply elem_of_nil in H.
  - subst shown. destruct (truthy_opt pdb_id) eqn:H1.
    { rewrite display_structure_PDB in H by done. cbn in H.
      repeat (apply elem_of_cons in H as [H | H]; [done |]). by apply elem_of_nil in H. }
    destruct (truthy_opt af_id) eqn:H2.
    + rewrite display_structure_AlphaFold in H by done. cbn in H.
      repeat (apply elem_of_cons in H as [H | H]; [by try injection H |]).
      by apply elem_of_nil in H.
    + rewrite display_structure_none in H by done. cbn in H.
      repeat (apply elem_of_cons in H as [H | H]; [done |]). by apply elem_of_nil in H.
Qed.

Lemma structure_endpoint_precedence_witness :
  let r : gmap string value :=
    <["AlphaFold_ID" := VStr "P69905"]>
      (<["PDB_ID" := VStr "1A00"]> {["ID" := VStr "P69905"]}) in
  App.display_structure (fun _ => Response 200 "ATOM" (Raise JSONDecodeError)) r =
    IO [st_subheader "3D Structure Viewer";
        st_write [Lit "Showing PDB structure: **"; FmtGet (Some (VStr "1A00")); Lit "**"];
        requests_get (RCSB (Some (VStr "1A00")));
        st_html "ATOM"] (Ok tt).
Proof.
  intros r.
  destruct (structure_endpoint_precedence
              (fun _ => Response 200 "ATOM" (Raise JSONDecodeError)) r) as [H _].
  rewrite H; [vm_compute; reflexivity |].
  exists "1A00". split; [vm_compute; reflexivity | discriminate].
Defined.

(** C8 fails on a record that contains [PDB_ID] with an empty value, as the
    extractor stores for a [DR   PDB] line whose second field is blank: the
    predicted-structure endpoint is used although [PDB_ID] is present. *)
Lemma empty_PDB_ID_uses_AlphaFold :
  let r : gmap string value :=
    <["AlphaFold_ID" := VStr "P69905"]>
      (<["PDB_ID" := VStr ""]> {["ID" := VStr "P69905"]}) in
  App.extract "P69905" ["DR   PDB; ; X-ray; 2.10 A; A/C=2-142.";
                        "DR   AlphaFoldDB; P69905; -."] = Ok r /\
  r !! "PDB_ID" = Some (VStr "") /\
  App.display_structure empty_web r =
    IO [st_subheader "3D Structure Viewer";
        st_write [Lit "Showing AlphaFold predicted structure for UniProt ID: **";
                  FmtGet (Some (VStr "P69905")); Lit "**"];
        requests_get (AlphaFoldDB (Some (VStr "P69905")));
        st_html ""] (Ok tt).
Proof. repeat split; vm_compute; reflexivity. Qed.

(** * Further properties of the code *)

(** ** Tokens, trimming and fields *)

Section MoreStringFacts.

Lemma app_assoc_s a b c : (a +:+ b) +:+ c = a +:+ (b +:+ c).
Proof. induction a as [|x a IH]; [done |]. rewrite !app_cons. by rewrite IH. Qed.

Lemma no_space_app a b : no_space (a +:+ b) = no_space a && no_space b.
Proof.
  induction a as [|x a IH]; [done |]. rewrite app_cons. cbn.
  rewrite IH. by rewrite andb_assoc.
Qed.

Lemma no_space_snoc t c : no_space t = true -> isspace c = false -> no_space (snoc t c) = true.
Proof. intros Ht Hc. unfold snoc. rewrite no_space_app, Ht. cbn. by rewrite Hc. Qed.

Lemma snoc_nonempty t c : snoc t c <> "".
Proof. by destruct t. Qed.

(** Every piece of [s.split()] is a token. *)
Lemma split_ws_go_tokens s :
  forall cur, match cur with Some t => token t | None => True end ->
  Forall token (split_ws_go cur s).
Proof.
  induction s as [|c s IH]; intros cur Hcur; cbn.
  - destruct cur as [t|]; [by apply Forall_cons | by apply Forall_nil].
  - destruct (isspace c) eqn:Hc.
    + destruct cur as [t|]; [apply Forall_cons; split; [done |] |]; by apply IH.
    + apply IH. split; [apply snoc_nonempty |].
      apply no_space_snoc; [| done]. destruct cur as [t|]; [apply Hcur | done].
Qed.

Lemma split_ws_tokens s : Forall token (split_ws s).
Proof. by apply split_ws_go_tokens. Qed.

(** ** [" ".join] undoes [split()] on tokens *)

Lemma split_ws_go_run t : forall u s,
  no_space t = true ->
  split_ws_go (Some u) (t +:+ s) = split_ws_go (Some (u +:+ t)) s.
Proof.
  induction t as [|c t IH]; intros u s Ht.
  - by rewrite app_empty_r.
  - cbn in Ht. apply andb_prop in Ht as [Hc Ht]. apply negb_true_iff in Hc.
    rewrite app_cons. cbn [split_ws_go]. rewrite Hc. cbn [default].
    rewrite IH by done. by rewrite app_snoc.
Qed.

Lemma split_ws_go_token t s :
  token t -> split_ws_go None (t +:+ s) = split_ws_go (Some t) s.
Proof.
  intros [Hne Ht]. destruct t as [|c t]; [done |].
  cbn in Ht. apply andb_prop in Ht as [Hc Ht]. apply negb_true_iff in Hc.
  rewrite app_cons. cbn [split_ws_go]. rewrite Hc. cbn [default].
  by rewrite split_ws_go_run.
Qed.

Lemma split_ws_join l : Forall token l -> split_ws (join " " l) = l.
Proof.
  unfold split_ws. induction 1 as [|t l Ht Hl IH]; [done |].
  destruct l as [|t' l].
  - cbn [join]. rewrite <- (app_empty_r t) at 1. by rewrite split_ws_go_token.
  - change (join " " (t :: t' :: l)) with (t +:+ " " +:+ join " " (t' :: l)).
    rewrite split_ws_go_token by done.
    change (" " +:+ join " " (t' :: l)) with (String " " (join " " (t' :: l))).
    cbn [split_ws_go isspace]. by rewrite IH.
Qed.

(** ** What [strip()] leaves *)

Lemma lstrip_starts s : starts_space (lstrip s) = false.
Proof.
  induction s as [|c s IH]; [done |]. cbn [lstrip].
  destruct (isspace c) eqn:Hc; [done |]. cbn. done.
Qed.

Lemma rstrip_starts s : starts_space s = false -> starts_space (rstrip s) = false.
Proof.
  destruct s as [|c s]; [done |]. cbn. intros Hc.
  destruct (rstrip s); [by rewrite Hc | done].
Qed.

Lemma rstrip_ends s : ends_space (rstrip s) = false.
Proof.
  induction s as [|c s IH]; [done |]. cbn [rstrip].
  destruct (rstrip s) as [|d r] eqn:Hr.
  - by destruct (isspace c) eqn:Hc; cbn.
  - done.
Qed.

Lemma strip_trimmed s : trimmed (strip s).
Proof.
  split; [apply rstrip_starts, lstrip_starts | apply rstrip_ends].
Qed.

Lemma lstrip_id s : starts_space s = false -> lstrip s = s.
Proof. destruct s as [|c s]; [done |]. cbn. by intros ->. Qed.

Lemma rstrip_id s : ends_space s = false -> rstrip s = s.
Proof.
  induction s as [|c s IH]; [done |]. intros H. cbn [rstrip].
  destruct s as [|d s].
  - cbn in *. by rewrite H.
  - rewrite IH by done. done.
Qed.

Lemma strip_id s : trimmed s -> strip s = s.
Proof. intros [H1 H2]. unfold strip. rewrite lstrip_id by done. by apply rstrip_id. Qed.

Lemma token_trimmed t : token t -> trimmed t.
Proof.
  intros [_ H]. split.
  - destruct t as [|c t]; [done |]. cbn in *.
    apply andb_prop in H as [Hc _]. by apply negb_true_iff.
  - induction t as [|c t IH]; [done |]. cbn in H.
    apply andb_prop in H as [Hc Ht]. destruct t as [|d t].
    + cbn. by apply negb_true_iff.
    + by apply IH.
Qed.

(** ** The pieces of [split(";")] *)

Lemma prefix_semicolon c s :
  String.prefix ";" (String c s) = Ascii.eqb c ";".
Proof.
  change (String.prefix ";" (String c s))
    with (if ascii_dec ";" c then String.prefix "" s else false).
  destruct (ascii_dec ";" c) as [<- | Hne].
  - by destruct s.
  - symmetry. apply Ascii.eqb_neq. congruence.
Qed.

Lemma contains_semicolon_cons c s :
  contains ";" (String c s) = Ascii.eqb c ";" || contains ";" s.
Proof. cbn [contains]. by rewrite prefix_semicolon. Qed.

Lemma contains_semicolon_app a b :
  contains ";" (a +:+ b) = contains ";" a || contains ";" b.
Proof.
  induction a as [|c a IH]; [done |].
  rewrite app_cons, !contains_semicolon_cons, IH. by rewrite orb_assoc.
Qed.

Lemma split_go_semicolon_free s : forall cur,
  contains ";" cur = false ->
  Forall (fun piece => contains ";" piece = false) (split_go ";" 0 cur s).
Proof.
  induction s as [|c s IH]; intros cur Hcur; cbn [split_go].
  - by apply Forall_cons.
  - rewrite prefix_semicolon. destruct (Ascii.eqb c ";") eqn:Hc.
    + apply Forall_cons. split; [done |]. by apply IH.
    + apply IH. unfold snoc. rewrite contains_semicolon_app, Hcur.
      rewrite contains_semicolon_cons, Hc. done.
Qed.

Lemma split_semicolon_free s :
  Forall (fun piece => contains ";" piece = false) (split s ";").
Proof. by apply split_go_semicolon_free. Qed.

(** ** Where [split(sep)] cuts *)

Lemma split_go_skip sep x : forall cur rest,
  split_go sep (String.length x) cur (x +:+ rest) = split_go sep 0 cur rest.
Proof.
  induction x as [|c x IH]; intros cur rest; [done |].
  rewrite app_cons. cbn [split_go String.length]. apply IH.
Qed.

Lemma split_go_match sep rest cur :
  sep <> "" -> split_go sep 0 cur (sep +:+ rest) = cur :: split_go sep 0 "" rest.
Proof.
  intros Hsep. destruct sep as [|c sep]; [done |].
  pose proof (prefix_app_self (String c sep) rest) as Hp.
  rewrite app_cons in *. cbn [split_go]. rewrite Hp.
  cbn [String.length Nat.pred]. by rewrite split_go_skip.
Qed.

(** The first piece starts with everything read before the first match. *)
Lemma split_go_head0 sep s : forall cur,
  exists x l, split_go sep 0 cur s = (cur +:+ x) :: l.
Proof.
  induction s as [|c s IH]; intros cur; cbn [split_go].
  - exists "", []. by rewrite app_empty_r.
  - destruct (String.prefix sep (String c s)).
    + exists "", (split_go sep (Nat.pred (String.length sep)) "" s).
      by rewrite app_empty_r.
    + destruct (IH (snoc cur c)) as (x & l & ->).
      exists (String c x), l. by rewrite app_snoc.
Qed.

Lemma no_match_in_tail sep c a tail :
  no_match_in sep (String c a) tail -> no_match_in sep a tail.
Proof. intros H a1 d a2 ->. by apply (H (String c a1) d a2). Qed.

Lemma split_go_head sep a : forall cur tail,
  no_match_in sep a tail ->
  exists x l, split_go sep 0 cur (a +:+ tail) = (cur +:+ a +:+ x) :: l.
Proof.
  induction a as [|c a IH]; intros cur tail H.
  - apply split_go_head0.
  - rewrite app_cons. cbn [split_go].
    rewrite <- app_cons. rewrite (H "" c a eq_refl).
    destruct (IH (snoc cur c) tail (no_match_in_tail _ _ _ _ H)) as (x & l & ->).
    exists x, l. by rewrite app_snoc, app_cons.
Qed.

Lemma split_go_cut sep a : forall cur rest,
  sep <> "" -> no_match_in sep a (sep +:+ rest) ->
  split_go sep 0 cur (a +:+ sep +:+ rest) = (cur +:+ a) :: split_go sep 0 "" rest.
Proof.
  induction a as [|c a IH]; intros cur rest Hsep H.
  - change ("" +:+ sep +:+ rest) with (sep +:+ rest).
    rewrite (app_empty_r cur). by apply split_go_match.
  - rewrite app_cons. cbn [split_go].
    rewrite <- app_cons. rewrite (H "" c a eq_refl).
    rewrite IH by (done || by eapply no_match_in_tail).
    by rewrite app_snoc.
Qed.

Lemma no_semicolon_no_match a tail :
  contains ";" a = false -> no_match_in ";" a tail.
Proof.
  intros H a1 c a2 ->. rewrite contains_semicolon_app in H.
  apply orb_false_elim in H as [_ H]. rewrite contains_semicolon_cons in H.
  apply orb_false_elim in H as [H _]. rewrite app_cons. by rewrite prefix_semicolon.
Qed.

(** The second [;]-field of [a;b] and of [a;b;...]. *)
Lemma second_field a b rest :
  contains ";" a = false -> contains ";" b = false ->
  rest = "" \/ (exists r, rest = ";" +:+ r) ->
  split (a +:+ ";" +:+ b +:+ rest) ";" !! 1%nat = Some b.
Proof.
  intros Ha Hb Hrest. unfold split.
  rewrite split_go_cut by (done || by apply no_semicolon_no_match).
  destruct Hrest as [-> | [r ->]].
  - rewrite app_empty_r. by rewrite split_go_absent.
  - by rewrite split_go_cut by (done || by apply no_semicolon_no_match).
Qed.

Lemma first_field a rest :
  contains ";" a = false -> split (a +:+ ";" +:+ rest) ";" !! 0%nat = Some a.
Proof.
  intros Ha. unfold split.
  by rewrite split_go_cut by (done || by apply no_semicolon_no_match).
Qed.

(** ** [sep.join] undoes [split(sep)] *)

Lemma join_cons sep x l : l <> [] -> join sep (x :: l) = x +:+ sep +:+ join sep l.
Proof. by destruct l. Qed.

Lemma join_split_go sep : sep <> "" ->
  forall n s cur, (String.length s <= n)%nat ->
  join sep (split_go sep 0 cur s) = cur +:+ s.
Proof.
  intros Hsep. induction n as [|n IH]; intros s cur Hn.
  - destruct s; [| cbn in Hn; lia]. cbn. by rewrite app_empty_r.
  - destruct s as [|c s]; [cbn; by rewrite app_empty_r |]. cbn [split_go].
    destruct (String.prefix sep (String c s)) eqn:Hp.
    + destruct (startswith_app _ _ Hp) as [rest E].
      destruct sep as [|d sep]; [done |]. rewrite app_cons in E.
      injection E as <- ->. cbn [String.length Nat.pred].
      rewrite split_go_skip.
      rewrite join_cons by apply split_go_nonempty.
      rewrite IH.
      * by rewrite app_cons.
      * cbn in Hn. assert (String.length (sep +:+ rest) = String.length sep + String.length rest)%nat as Hl.
        { clear. induction sep as [|x sep IHs]; [done |]. rewrite app_cons. cbn. by rewrite IHs. }
        lia.
    + rewrite IH by (cbn in Hn; lia). by rewrite app_snoc.
Qed.

Lemma join_split s sep : sep <> "" -> join sep (split s sep) = s.
Proof. intros H. unfold split. by rewrite (join_split_go sep H (String.length s)). Qed.

(** ** The text after [Full=] *)

Lemma prefix_empty s : String.prefix "" s = true.
Proof. by destruct s. Qed.

Lemma prefix_app_stop sep : forall a d rest,
  (forall s1 s2, sep <> s1 +:+ String d s2) ->
  String.prefix sep (a +:+ String d rest) = String.prefix sep a.
Proof.
  induction sep as [|c sep IH]; intros a d rest H.
  - by rewrite !prefix_empty.
  - destruct a as [|b a].
    + change ("" +:+ String d rest) with (String d rest). cbn [String.prefix].
      destruct (ascii_dec c d) as [-> | Hne]; [| done].
      by destruct (H "" sep).
    + rewrite app_cons. cbn [String.prefix].
      destruct (ascii_dec c b); [| done]. apply IH.
      intros s1 s2 ->. by apply (H (String c s1) s2).
Qed.

Lemma contains_app_r sep a1 a2 :
  contains sep (a1 +:+ a2) = false -> contains sep a2 = false.
Proof.
  induction a1 as [|c a1 IH]; [done |]. rewrite app_cons. cbn [contains].
  intros H. apply orb_false_elim in H as [_ H]. by apply IH.
Qed.

Lemma contains_prefix sep s : contains sep s = false -> String.prefix sep s = false.
Proof.
  destruct s; cbn [contains]; intros H; by apply orb_false_elim in H as [H _].
Qed.

Lemma app_snoc_split a1 : forall a d c a2,
  a +:+ String d "" = a1 +:+ String c a2 ->
  (exists a2', a = a1 +:+ String c a2' /\ a2 = a2' +:+ String d "") \/
  (a = a1 /\ c = d /\ a2 = "").
Proof.
  induction a1 as [|x a1 IH]; intros a d c a2 E.
  - destruct a as [|y a].
    + right. by injection E as <- <-.
    + left. rewrite app_cons in E. injection E as <- <-. by exists a.
  - destruct a as [|y a].
    + rewrite app_cons in E. injection E as <- E. by destruct a1.
    + rewrite !app_cons in E. injection E as <- E.
      destruct (IH _ _ _ _ E) as [(a2' & -> & ->) | (-> & -> & ->)].
      * left. by exists a2'.
      * by right.
Qed.

Lemma Full_not_across s1 s2 : "Full=" <> s1 +:+ String ";" s2.
Proof. by destruct s1 as [|? [|? [|? [|? [|? [|? ?]]]]]]. Qed.

Lemma Full_no_match a rest :
  contains "Full=" a = false -> no_match_in "Full=" (a +:+ ";") rest.
Proof.
  intros H a1 c a2 E.
  apply app_snoc_split in E as [(a2' & -> & ->) | (-> & -> & ->)]; [| done].
  rewrite <- app_cons, app_assoc_s.
  change (String ";" "" +:+ rest) with (String ";" rest).
  rewrite prefix_app_stop by apply Full_not_across.
  by apply contains_prefix, (contains_app_r _ a1).
Qed.

(** ** The lines of [splitlines()] *)

Lemma no_linebreak_snoc t c :
  no_linebreak t = true -> is_linebreak c = false -> no_linebreak (snoc t c) = true.
Proof.
  intros Ht Hc. unfold snoc. induction t as [|x t IH].
  - change ("" +:+ String c "") with (String c ""). cbn [no_linebreak]. by rewrite Hc.
  - rewrite app_cons. cbn [no_linebreak] in *.
    apply andb_prop in Ht as [-> Ht]. by apply IH.
Qed.

Lemma splitlines_go_no_linebreak s : forall after_cr cur,
  no_linebreak cur = true ->
  Forall (fun line => no_linebreak line = true) (splitlines_go after_cr cur s).
Proof.
  induction s as [|c s IH]; intros after_cr cur Hcur; cbn [splitlines_go].
  - destruct cur; [apply Forall_nil | by apply Forall_cons]. done.
  - destruct (after_cr && Ascii.eqb c "010"); [by apply IH |].
    destruct (is_linebreak c) eqn:Hc.
    + apply Forall_cons. split; [done |]. by apply IH.
    + apply IH. by apply no_linebreak_snoc.
Qed.

Lemma splitlines_go_plain s : forall cur,
  no_linebreak s = true ->
  splitlines_go false cur s = match cur +:+ s with "" => [] | l => [l] end.
Proof.
  induction s as [|c s IH]; intros cur Hs.
  - cbn [splitlines_go]. rewrite app_empty_r. by destruct cur.
  - cbn in Hs. apply andb_prop in Hs as [Hc Hs]. apply negb_true_iff in Hc.
    cbn [splitlines_go andb]. rewrite Hc. rewrite IH by done. by rewrite app_snoc.
Qed.

Lemma splitlines_go_line l : forall cur rest,
  no_linebreak l = true ->
  splitlines_go false cur (l +:+ String "010" rest)
    = (cur +:+ l) :: splitlines_go false "" rest.
Proof.
  induction l as [|c l IH]; intros cur rest Hl.
  - change ("" +:+ String "010" rest) with (String "010" rest).
    cbn. by rewrite app_empty_r.
  - cbn [no_linebreak] in Hl. apply andb_prop in Hl as [Hc Hl]. apply negb_true_iff in Hc.
    rewrite app_cons. cbn [splitlines_go andb]. rewrite Hc.
    rewrite IH by done. by rewrite app_snoc.
Qed.

Lemma splitlines_go_line_cr l : forall cur rest,
  no_linebreak l = true ->
  splitlines_go false cur (l +:+ String "013" (String "010" rest))
    = (cur +:+ l) :: splitlines_go false "" rest.
Proof.
  induction l as [|c l IH]; intros cur rest Hl.
  - change ("" +:+ String "013" (String "010" rest)) with (String "013" (String "010" rest)).
    cbn. by rewrite app_empty_r.
  - cbn [no_linebreak] in Hl. apply andb_prop in Hl as [Hc Hl]. apply negb_true_iff in Hc.
    rewrite app_cons. cbn [splitlines_go andb]. rewrite Hc.
    rewrite IH by done. by rewrite app_snoc.
Qed.

Lemma splitlines_terminated eol lines :
  eol = LF \/ eol = CRLF ->
  Forall (fun line => no_linebreak line = true) lines ->
  splitlines (terminated eol lines) = lines.
Proof.
  intros Heol Hl. unfold splitlines. induction Hl as [|l ls Hl Hls IH]; [done |].
  cbn [terminated]. destruct Heol as [-> | ->].
  - change (LF +:+ terminated LF ls) with (String "010" (terminated LF ls)).
    rewrite splitlines_go_line by done. by rewrite IH by by left.
  - change (CRLF +:+ terminated CRLF ls)
      with (String "013" (String "010" (terminated CRLF ls))).
    rewrite splitlines_go_line_cr by done. by rewrite IH by by right.
Qed.

(** ** [int] on a run of digits *)

Lemma digit_not_space c : is_Some (digit c) -> isspace c = false.
Proof.
  intros [d H]. destruct c as [[] [] [] [] [] [] [] []]; vm_compute in H; by try discriminate.
Qed.

Lemma all_digits_no_space s : all_digits s = true -> no_space s = true.
Proof.
  induction s as [|c s IH]; [done |]. cbn. intros H.
  apply andb_prop in H as [Hc Hs]. apply bool_decide_eq_true in Hc.
  by rewrite (digit_not_space c Hc), IH.
Qed.

Lemma int_digits_run s : forall b acc,
  all_digits s = true -> s <> "" \/ b = true ->
  int_digits b acc s = Some (decimal_from acc s).
Proof.
  induction s as [|c s IH]; intros b acc Hs Hb.
  - by destruct Hb as [? | ->].
  - cbn in Hs. apply andb_prop in Hs as [Hc Hs]. apply bool_decide_eq_true in Hc.
    destruct Hc as [d Hd]. cbn [int_digits decimal_from]. rewrite Hd. cbn [default].
    apply IH; [done | by right].
Qed.

Lemma decimal_from_nonneg s : forall acc,
  all_digits s = true -> 0 <= acc -> 0 <= decimal_from acc s.
Proof.
  induction s as [|c s IH]; intros acc Hs Hacc; [done |].
  cbn in Hs. apply andb_prop in Hs as [Hc Hs]. apply bool_decide_eq_true in Hc.
  destruct Hc as [d Hd]. cbn [decimal_from]. rewrite Hd. cbn [default].
  apply IH; [done |]. unfold digit in Hd. cbv zeta in Hd.
  destruct (_ && _) eqn:E; [| done]. injection Hd as <-.
  apply andb_prop in E as [E1 E2]. apply Z.leb_le in E1. unfold id. lia.
Qed.

Lemma count_digits_run s :
  all_digits s = true -> count_digits s = Z.of_nat (String.length s).
Proof.
  induction s as [|c s IH]; [done |]. cbn [all_digits count_digits String.length].
  intros H. apply andb_prop in H as [Hc Hs]. apply bool_decide_eq_true in Hc.
  destruct Hc as [d ->]. rewrite IH by done. lia.
Qed.

Lemma int_of_digits s :
  s <> "" -> all_digits s = true ->
  int s = if Z.of_nat (String.length s) <=? int_max_str_digits
          then Ok (decimal s) else Raise ValueError.
Proof.
  intros Hne Hs. unfold int. cbv zeta. rewrite strip_id
    by (apply token_trimmed; split; [done | by apply all_digits_no_space]).
  assert (int_digits false 0 s = Some (decimal s)) as Hrun
    by (apply int_digits_run; [done | by left]).
  rewrite <- (count_digits_run s Hs).
  destruct s as [|c s]; [done |].
  pose proof Hs as Hc. cbn in Hc. apply andb_prop in Hc as [Hc _].
  apply bool_decide_eq_true in Hc. destruct Hc as [d Hd].
  destruct c as [[] [] [] [] [] [] [] []]; vm_compute in Hd; try discriminate;
    cbv iota beta; by rewrite Hrun.
Qed.

End MoreStringFacts.

(** ** What the record holds *)

Lemma getitem_elem {A} (l : list A) i x : getitem l i = Ok x -> x ∈ l.
Proof.
  unfold getitem. destruct (l !! i) as [y|] eqn:E; [| done].
  intros [= <-]. by eapply list_elem_of_lookup_2.
Qed.

Lemma getitem_last_elem {A} (l : list A) x : getitem_last l = Ok x -> x ∈ l.
Proof.
  unfold getitem_last. destruct (last l) as [y|] eqn:E; [| done].
  intros [= <-]. rewrite last_lookup in E. by eapply list_elem_of_lookup_2.
Qed.

Ltac key_in := repeat first [apply list_elem_of_here | apply list_elem_of_further].
Ltac key_out H :=
  repeat (apply elem_of_cons in H as [H | H]; [discriminate |]); by apply elem_of_nil in H.

Ltac field_goal :=
  lazymatch goal with
  | |- field_ok _ _ (VStr _) =>
      cbn [field_ok]; split; [key_in |]; split; [| split];
      let E := fresh "E" in intros E;
      first
        [ discriminate E
        | key_out E
        | apply strip_trimmed
        | match goal with
          | H : getitem_last (split_ws _) = Ok ?x |- token ?x =>
              apply getitem_last_elem in H;
              exact (proj1 (Forall_forall _ _) (split_ws_tokens _) _ H)
          | H : getitem (split _ ";") _ = Ok ?x |- contains ";" ?x = false =>
              apply getitem_elem in H;
              exact (proj1 (Forall_forall _ _) (split_semicolon_free _) _ H)
          end ]
  | |- field_ok _ "Length" (VInt _) => reflexivity
  | |- field_ok _ "PTMs" (VList _) =>
      split; [reflexivity |]; split;
      [ match goal with
        | D : bool_decide (?l ≠ []) = true |- _ =>
            apply bool_decide_eq_true in D; by destruct l
        end
      | apply Forall_fmap, Forall_true; intros ?; apply strip_trimmed ]
  end.

Ltac fields_goal :=
  repeat (apply map_Forall_insert_2; [field_goal |]); try done.

Section RecordFacts.

Lemma loop_invariant body (Inv : gmap string value -> Prop) lines rest :
  (forall j line pd1 pd2, Inv pd1 -> body lines j line pd1 = Ok pd2 -> Inv pd2) ->
  forall i pd r, Inv pd -> loop body lines i rest pd = Ok r -> Inv r.
Proof.
  intros Hb. induction rest as [|x rest IH]; intros i pd r Hpd H; cbn in H.
  - by injection H as <-.
  - destruct (body lines i x pd) as [pd'|e] eqn:Hx; cbn in H; [| done].
    eapply IH; [| exact H]. by eapply Hb.
Qed.

Lemma field_ok_weaken ks ks' k v : ks ⊆ ks' -> field_ok ks k v -> field_ok ks' k v.
Proof. intros Hks. destruct v; cbn; [| done | done]. intros (? & ? & ? & ?). auto. Qed.

Lemma ASG01_body_fields lines i line pd pd' :
  map_Forall (field_ok string_fields) pd ->
  ASG01.loop_body lines i line pd = Ok pd' ->
  map_Forall (field_ok string_fields) pd'.
Proof.
  intros Hpd H. unfold ASG01.loop_body in H.
  body_cases H; injection H as <-; try done; try (by fields_goal);
    body_cases Ha; injection Ha as <-; by fields_goal.
Qed.

Lemma App_body_fields lines i line pd pd' :
  map_Forall (field_ok App_string_fields) pd ->
  App.loop_body lines i line pd = Ok pd' ->
  map_Forall (field_ok App_string_fields) pd'.
Proof.
  intros Hpd H. unfold App.loop_body in H.
  body_cases H; injection H as <-; try done; try (by fields_goal);
    body_cases Ha; injection Ha as <-; by fields_goal.
Qed.

Lemma initial_fields ks uniprot_id :
  "ID" ∈ ks -> map_Forall (field_ok ks) ({["ID" := VStr uniprot_id]} : gmap string value).
Proof.
  intros Hk. apply map_Forall_singleton. cbn. split; [done |].
  split; [discriminate |]. split; intros E; key_out E.
Qed.

Lemma ASG01_extract_fields uniprot_id lines r :
  ASG01.extract uniprot_id lines = Ok r -> map_Forall (field_ok string_fields) r.
Proof.
  unfold ASG01.extract. rewrite ASG01_for_loop.
  apply (loop_invariant _ (map_Forall (field_ok string_fields))).
  - intros j l p1 p2. apply ASG01_body_fields.
  - apply initial_fields. key_in.
Qed.

Lemma App_extract_fields uniprot_id lines r :
  App.extract uniprot_id lines = Ok r -> map_Forall (field_ok App_string_fields) r.
Proof.
  unfold App.extract. rewrite App_for_loop.
  apply (loop_invariant _ (map_Forall (field_ok App_string_fields))).
  - intros j l p1 p2. apply App_body_fields.
  - apply initial_fields. key_in.
Qed.

Lemma display_outcome (r : gmap string value) :
  (forall n, r !! "PTMs" <> Some (VInt n)) ->
  outcome (display_protein_characteristics r) = Ok tt.
Proof.
  intros H. unfold display_protein_characteristics.
  destruct (r !! "Structure"), (r !! "Subcellular Location"),
    (r !! "Pathway"), (r !! "Disease");
    destruct (r !! "PTMs") as [[ | n | ]|] eqn:E; try done; by destruct (H n).
Qed.

Lemma startswith_other s p q :
  startswith s p = true -> (forall r, startswith (p +:+ r) q = false) ->
  startswith s q = false.
Proof. intros H Hq. destruct (startswith_app _ _ H) as [r ->]. apply Hq. Qed.

Lemma getitem_Some {A} (l : list A) i x : l !! i = Some x -> getitem l i = Ok x.
Proof. unfold getitem. by intros ->. Qed.

Lemma ASG01_body_DE_text lines i pd a rest :
  contains "Full=" a = false -> contains ";" a = false ->
  ASG01.loop_body lines i ("DE   RecName: Full=" +:+ a +:+ ";" +:+ rest) pd =
    Ok (<["Function" := VStr a]> pd).
Proof.
  intros Hf Hs. unfold ASG01.loop_body. decide_branch. rewrite split_DE.
  rewrite <- (app_assoc_s a ";" rest).
  destruct (split_go_head "Full=" (a +:+ ";") "" rest (Full_no_match a rest Hf))
    as (x & l & ->).
  cbn [getitem lookup list_lookup mbind result_bind Py.bind].
  change ("" +:+ (a +:+ ";") +:+ x) with ((a +:+ ";") +:+ x).
  rewrite app_assoc_s. by rewrite (getitem_Some _ _ _ (first_field a x Hs)).
Qed.

Lemma ASG01_body_second_field lines i line pd p k b :
  (p, k) ∈ verbatim_fields -> startswith line p = true ->
  split line ";" !! 1%nat = Some b ->
  ASG01.loop_body lines i line pd = Ok (<[k := VStr b]> pd).
Proof.
  intros Hp H Hb. unfold ASG01.loop_body.
  rewrite (getitem_Some _ _ _ Hb).
  repeat (apply elem_of_cons in Hp as [[= -> ->] | Hp]); [| | | by apply elem_of_nil in Hp];
    by branch H.
Qed.

Lemma int_digits_other s : forall b acc,
  has_other_char s = true -> int_digits b acc s = None.
Proof.
  induction s as [|c s IH]; intros b acc H; [done |].
  cbn [has_other_char] in H. cbn [int_digits]. unfold int_char in H.
  destruct (digit c) as [d|] eqn:Hd.
  - rewrite bool_decide_eq_true_2 in H by done. cbn in H. by apply IH.
  - destruct (Ascii.eqb c "_" && b) eqn:E; [| done].
    apply andb_prop in E as [E _]. rewrite E in H.
    rewrite orb_true_r in H. cbn in H. by apply IH.
Qed.

Lemma int_rejects s :
  token s -> has_other_char s = true -> int s = Raise ValueError.
Proof.
  intros Ht H. unfold int. cbv zeta. rewrite strip_id by by apply token_trimmed.
  destruct s as [|c s]; [done |].
  pose proof (int_digits_other _ false 0 H) as Hall.
  destruct c as [[] [] [] [] [] [] [] []]; cbv iota beta; try (by rewrite Hall);
    cbn in H; by rewrite (int_digits_other _ false 0 H).
Qed.

Lemma lookup_token line i part : split_ws line !! i = Some part -> token part.
Proof.
  intros H. apply (proj1 (Forall_forall _ _) (split_ws_tokens line)).
  by eapply list_elem_of_lookup_2.
Qed.

Lemma ASG01_body_FT_bad lines i line pd part :
  startswith line "FT   MOD_RES" = true ->
  split_ws line !! 2%nat = Some part -> int part = Raise ValueError ->
  ASG01.loop_body lines i line pd = Raise ValueError.
Proof.
  intros H Hp Hi. rewrite ASG01_facts.body_FT by done.
  rewrite (bool_decide_eq_true_2 (3 ≤ length (split_ws line))%nat).
  - rewrite (getitem_Some _ _ _ Hp). cbn. by rewrite Hi.
  - apply lookup_lt_Some in Hp. lia.
Qed.

Lemma App_body_FT lines i line pd :
  startswith line "FT   MOD_RES" = true ->
  App.loop_body lines i line pd = ASG01.loop_body lines i line pd.
Proof.
  intros H. apply App_facts.body_agrees;
    by (eapply startswith_other; [exact H | intros r]).
Qed.

Lemma display_first_lines (r : gmap string value) :
  take 2 (trace (display_protein_characteristics r)) =
    [st_subheader "Protein Characteristics";
     st_write [Lit "**UniProt ID:** "; Fmt (default (VStr "N/A") (r !! "ID"))]].
Proof. reflexivity. Qed.

Lemma display_structure_outcome web (r : gmap string value) :
  outcome (App.display_structure web r) = Ok tt.
Proof.
  unfold App.display_structure.
  by destruct (truthy_opt (r !! "PDB_ID")), (truthy_opt (r !! "AlphaFold_ID")).
Qed.

Lemma record_not_empty (r : gmap string value) v : r !! "ID" = Some v -> r <> ∅.
Proof. intros H ->. by rewrite lookup_empty in H. Qed.

Lemma typed_PTMs ks (r : gmap string value) :
  map_Forall (field_ok ks) r -> forall n, r !! "PTMs" <> Some (VInt n).
Proof. intros Hf n Hn. by pose proof (Hf _ _ Hn). Qed.

Lemma App_extract_ID uniprot_id lines r :
  App.extract uniprot_id lines = Ok r -> r !! "ID" = Some (VStr uniprot_id).
Proof.
  unfold App.extract. rewrite App_for_loop. intros H.
  assert (forall j l p1 p2, l ∈ lines -> App.loop_body lines j l p1 = Ok p2 ->
                            p2 !! "ID" = p1 !! "ID") as Hk.
  { intros j l p1 p2 _ Hb. unfold App.loop_body in Hb.
    body_cases Hb; injection Hb as <-; try done; try (by rewrite lookup_insert_ne);
      body_cases Ha; injection Ha as <-; by rewrite ?lookup_insert_ne. }
  rewrite (loop_keep _ _ "ID" _ _ _ _ Hk H). apply lookup_singleton_eq.
Qed.

Lemma ppi_loop_app a : forall b acc,
  App.ppi_loop (a ++ b) acc = edges ← App.ppi_loop a acc; App.ppi_loop b edges.
Proof.
  induction a as [|x a IH]; intros b acc; [done |]. cbn [app App.ppi_loop].
  destruct (App.entry_get x "preferredName_A") as [p1|]; cbn [mbind result_bind Py.bind]; [| done].
  destruct (App.entry_get x "preferredName_B") as [p2|]; cbn [mbind result_bind Py.bind]; [| done].
  apply IH.
Qed.

Lemma ppi_loop_objects_return l : forall acc,
  Forall is_object l -> exists edges, App.ppi_loop l acc = Ok edges.
Proof.
  induction l as [|x l IH]; intros acc H; [by exists acc |].
  apply Forall_cons in H as [[m ->] H]. cbn. by apply IH.
Qed.

Lemma ppi_loop_not_object bad rest acc :
  ~ is_object bad -> App.ppi_loop (bad :: rest) acc = Raise AttributeError.
Proof. intros H. destruct bad; try done. destruct H. by eexists. Qed.

Lemma App_get_ppi_network_failed web uniprot_id species :
  status_code (web (StringDB uniprot_id species)) <> 200 ->
  App.get_ppi_network web uniprot_id species =
    IO [requests_get (StringDB uniprot_id species);
        st_error "Failed to fetch PPI data from STRING DB."] (Ok []).
Proof.
  intros H. unfold App.get_ppi_network. by rewrite (proj2 (Z.eqb_neq _ _) H).
Qed.

Lemma App_get_ppi_network_fetched web uniprot_id species :
  status_code (web (StringDB uniprot_id species)) = 200 ->
  App.get_ppi_network web uniprot_id species =
    IO [requests_get (StringDB uniprot_id species)]
       (data ← json_body (web (StringDB uniprot_id species));
        entries ← App.json_iter data;
        App.ppi_loop entries []).
Proof.
  intros H. unfold App.get_ppi_network. rewrite H. cbn.
  destruct (json_body _) as [data|e]; cbn; [| done].
  destruct (App.json_iter data) as [entries|e]; cbn; [| done].
  by destruct (App.ppi_loop entries []).
Qed.

(** The cycle of the second variant once the record is read. *)
Lemma App_main_read web uniprot_id r :
  uniprot_id <> "" -> status_code (web (UniProt uniprot_id)) = 200 ->
  App.extract uniprot_id (splitlines (text (web (UniProt uniprot_id)))) = Ok r ->
  App.main web uniprot_id true =
    IO (App_prologue ++ [requests_get (UniProt uniprot_id)] ++
        trace (display_protein_characteristics r)) (Ok tt) ≫= fun _ =>
    ppi_network ← App.get_ppi_network web uniprot_id 9606;
    App.display_ppi_network ppi_network;;
    App.display_structure web r.
Proof.
  intros Hid Hs Hr. rewrite App_main_clicked by done.
  rewrite App_get_protein_data_fetched by done. rewrite Hr.
  assert (outcome (display_protein_characteristics r) = Ok tt) as Ho
    by (eapply display_outcome, typed_PTMs; by eapply App_extract_fields).
  assert (r <> ∅) as Hne by (eapply record_not_empty; by eapply App_extract_ID).
  rewrite !io_bind_eq. cbn [trace outcome].
  rewrite (bool_decide_eq_false_2 (r = ∅)) by done. cbn [negb when].
  rewrite !io_bind_eq. rewrite Ho. cbn [trace outcome].
  destruct (outcome (App.get_ppi_network web uniprot_id 9606)) as [ppi|e];
    cbn [trace outcome]; rewrite <- ?app_assoc; [| done].
  rewrite !io_bind_eq.
  by destruct (outcome (App.display_ppi_network ppi)); cbn [trace outcome];
    rewrite <- ?app_assoc.
Qed.

Lemma App_body_PDB lines i line pd b :
  startswith line "DR   PDB" = true -> split line ";" !! 1%nat = Some b ->
  App.loop_body lines i line pd = Ok (<["PDB_ID" := VStr (strip b)]> pd).
Proof.
  intros H Hb. unfold App.loop_body. rewrite (getitem_Some _ _ _ Hb). by branch H.
Qed.

Lemma App_body_keeps_PDB lines i line pd pd' :
  startswith line "DR   PDB" = false ->
  App.loop_body lines i line pd = Ok pd' -> pd' !! "PDB_ID" = pd !! "PDB_ID".
Proof.
  intros H Hb. unfold App.loop_body in Hb.
  body_cases Hb; try congruence; injection Hb as <-; try done;
    try (by rewrite lookup_insert_ne);
    body_cases Ha; injection Ha as <-; by rewrite ?lookup_insert_ne.
Qed.

Lemma length_split_go_semicolon s : forall cur,
  length (split_go ";" 0 cur s) = S (count_semicolons s).
Proof.
  induction s as [|c s IH]; intros cur; [done |].
  cbn [split_go count_semicolons]. rewrite prefix_semicolon.
  destruct (Ascii.eqb c ";"); cbn [length Nat.pred String.length]; by rewrite IH.
Qed.

Lemma count_semicolons_contains s :
  (0 < count_semicolons s)%nat -> contains ";" s = true.
Proof.
  induction s as [|c s IH]; cbn [count_semicolons]; [lia |].
  rewrite contains_semicolon_cons. destruct (Ascii.eqb c ";"); [done |].
  intros H. by apply IH.
Qed.

End RecordFacts.

(** * Further theorems *)

(** X1. Every record the extractor returns is typed: a string sits under
    one of the eight string keys, an integer only under [Length], a list
    only under [PTMs] and it is never empty; no other key occurs. *)
Theorem record_is_typed (uniprot_id : string) (lines : list string)
    (r : gmap string value) :
  ASG01.extract uniprot_id lines = Ok r ->
  forall k v, r !! k = Some v ->
    match v with
    | VStr _ => k ∈ string_fields
    | VInt _ => k = "Length"
    | VList l => k = "PTMs" /\ l <> []
    end.
Proof.
  intros H k v Hk. pose proof (ASG01_extract_fields _ _ _ H k v Hk) as Hf.
  destruct v; cbn in Hf; tauto.
Qed.

Lemma record_is_typed_witness :
  let r : gmap string value :=
    <["PTMs" := VList ["Phosphoserine"]]>
      (<["Length" := VInt 4]> {["ID" := VStr "P69905"]}) in
  ASG01.extract "P69905" ["FT   MOD_RES 4 ; Phosphoserine"] = Ok r /\
  "PTMs" = "PTMs" /\ ["Phosphoserine"] <> [].
Proof.
  intros r.
  assert (ASG01.extract "P69905" ["FT   MOD_RES 4 ; Phosphoserine"] = Ok r) as E
    by (vm_compute; reflexivity).
  split; [exact E |].
  apply (record_is_typed _ _ _ E "PTMs" (VList ["Phosphoserine"])).
  vm_compute. reflexivity.
Defined.

(** X2. In a record the extractor returns, [Weight] is a whitespace-free,
    non-empty token; [Subcellular Location] and every entry of [PTMs] have
    no whitespace at either end; [Function], [Structure], [Pathway] and
    [Disease] contain no [;]. *)
Theorem stored_values_are_shaped (uniprot_id : string) (lines : list string)
    (r : gmap string value) :
  ASG01.extract uniprot_id lines = Ok r ->
  (forall w, r !! "Weight" = Some (VStr w) -> token w) /\
  (forall s, r !! "Subcellular Location" = Some (VStr s) -> trimmed s) /\
  (forall l, r !! "PTMs" = Some (VList l) -> Forall trimmed l) /\
  (forall k s, k ∈ ["Function"; "Structure"; "Pathway"; "Disease"] ->
     r !! k = Some (VStr s) -> contains ";" s = false).
Proof.
  intros H. pose proof (ASG01_extract_fields _ _ _ H) as Hf.
  split; [| split; [| split]].
  - intros w Hw. by apply (Hf _ _ Hw).
  - intros s Hs. apply (Hf _ _ Hs). key_in.
  - intros l Hl. apply (Hf _ _ Hl).
  - intros k s Hk Hs. by apply (Hf _ _ Hs).
Qed.

Lemma stored_values_are_shaped_witness :
  let r : gmap string value :=
    <["Weight" := VStr "MW;"]> {["ID" := VStr "P69905"]} in
  ASG01.extract "P69905" ["SQ   SEQUENCE   142 AA;"; "     MVLSPADKTN  15126 MW;  "] = Ok r /\
  token "MW;".
Proof.
  intros r.
  assert (ASG01.extract "P69905"
            ["SQ   SEQUENCE   142 AA;"; "     MVLSPADKTN  15126 MW;  "] = Ok r) as E
    by (vm_compute; reflexivity).
  split; [exact E |].
  apply (proj1 (stored_values_are_shaped _ _ _ E)). vm_compute. reflexivity.
Defined.

(** X3. [Weight] is the last whitespace-delimited token of the line that
    follows the last [SQ] line: when no later line starts with [SQ], the
    record returned holds that token, whatever it is. *)
Theorem Weight_is_last_token_of_next_line (uniprot_id : string)
    (pre post : list string) (sq next : string) (r : gmap string value) :
  startswith sq "SQ" = true ->
  Forall (fun l => startswith l "SQ" = false) (next :: post) ->
  ASG01.extract uniprot_id (pre ++ sq :: next :: post) = Ok r ->
  exists w, last (split_ws next) = Some w /\ r !! "Weight" = Some (VStr w).
Proof.
  intros H Hpost Hr. apply extract_split in Hr as (pd1 & pd2 & _ & H2 & H3).
  rewrite (ASG01_facts.body_SQ _ _ _ _ next) in H2; [| done |].
  - apply result_bind_Ok in H2 as (w & Hw & H2). injection H2 as <-.
    exists w. split.
    + unfold getitem_last in Hw. by destruct (last (split_ws next)) as [x|]; [injection Hw as -> |].
    + erewrite last_trigger_wins; [apply lookup_insert_eq | | exact H3].
      eapply Forall_impl; [exact Hpost |]. intros l Hl. by rewrite triggers_Weight.
  - rewrite lookup_app_r by lia.
    by replace (length pre + 1 - length pre)%nat with 1%nat by lia.
Qed.

Lemma Weight_is_last_token_of_next_line_witness :
  let r : gmap string value :=
    <["Weight" := VStr "HGSAQVKGHG"]> {["ID" := VStr "P69905"]} in
  ASG01.extract "P69905"
    ["AC   P69905;";
     "SQ   SEQUENCE   142 AA;  15258 MW;  15E13666573BBBAE CRC64;";
     "     MVLSPADKTN VKAAWGKVGA HGSAQVKGHG"; "//"] = Ok r /\
  exists w, last (split_ws "     MVLSPADKTN VKAAWGKVGA HGSAQVKGHG") = Some w /\
            r !! "Weight" = Some (VStr w).
Proof.
  intros r.
  assert (ASG01.extract "P69905"
    (["AC   P69905;"] ++
     "SQ   SEQUENCE   142 AA;  15258 MW;  15E13666573BBBAE CRC64;" ::
     "     MVLSPADKTN VKAAWGKVGA HGSAQVKGHG" :: ["//"]) = Ok r) as E
    by (vm_compute; reflexivity).
  split; [exact E |].
  apply (Weight_is_last_token_of_next_line "P69905" ["AC   P69905;"] ["//"]
           "SQ   SEQUENCE   142 AA;  15258 MW;  15E13666573BBBAE CRC64;"
           "     MVLSPADKTN VKAAWGKVGA HGSAQVKGHG" r eq_refl); [| exact E].
  repeat constructor.
Defined.

(** X4. [Function] is the text between [Full=] and the first [;] after it:
    on a line [DE   RecName: Full=a;rest], with no [;] and no [Full=] in
    [a], both variants store [a], and the record returned holds the [a] of
    the last such line. *)
Theorem Function_is_text_up_to_semicolon (a rest : string) :
  contains "Full=" a = false -> contains ";" a = false ->
  let line := "DE   RecName: Full=" +:+ a +:+ ";" +:+ rest in
  (forall lines i pd,
     ASG01.loop_body lines i line pd = Ok (<["Function" := VStr a]> pd) /\
     App.loop_body lines i line pd = Ok (<["Function" := VStr a]> pd)) /\
  (forall uniprot_id pre post r,
     Forall (fun l => startswith l "DE   RecName: Full=" = false) post ->
     ASG01.extract uniprot_id (pre ++ line :: post) = Ok r ->
     r !! "Function" = Some (VStr a)).
Proof.
  intros Hf Hs line.
  assert (forall lines i pd,
    ASG01.loop_body lines i line pd = Ok (<["Function" := VStr a]> pd)) as Hb
    by (intros; by apply ASG01_body_DE_text).
  split.
  - intros lines i pd. split; [apply Hb |].
    rewrite App_facts.body_agrees; [apply Hb | done | done].
  - intros uniprot_id pre post r Hpost Hr.
    apply extract_split in Hr as (pd1 & pd2 & _ & H2 & H3).
    rewrite Hb in H2. injection H2 as <-.
    erewrite last_trigger_wins; [apply lookup_insert_eq | | exact H3].
    eapply Forall_impl; [exact Hpost |]. intros l Hl.
    unfold triggers. cbn. by rewrite Hl.
Qed.

Lemma Function_is_text_up_to_semicolon_witness :
  ASG01.loop_body [] 0
    "DE   RecName: Full=Hemoglobin subunit alpha; AltName: Full=Alpha-globin;" ∅
  = Ok {["Function" := VStr "Hemoglobin subunit alpha"]}.
Proof.
  apply (proj1 (Function_is_text_up_to_semicolon "Hemoglobin subunit alpha"
                  " AltName: Full=Alpha-globin;" eq_refl eq_refl)).
Defined.

(** X5. A [DR   SUPFAM], [DR   Reactome] or [DR   MIM] line [a;b] or
    [a;b;...] stores [b], the text between its first two [;], under
    [Structure], [Pathway] or [Disease] exactly as it is: leading and
    trailing blanks are kept.  Both variants do so. *)
Theorem second_field_is_stored_verbatim (p k a b rest : string) :
  (p, k) ∈ verbatim_fields ->
  contains ";" a = false -> contains ";" b = false ->
  rest = "" \/ (exists r, rest = ";" +:+ r) ->
  let line := a +:+ ";" +:+ b +:+ rest in
  startswith line p = true ->
  forall lines i pd,
    ASG01.loop_body lines i line pd = Ok (<[k := VStr b]> pd) /\
    App.loop_body lines i line pd = Ok (<[k := VStr b]> pd).
Proof.
  intros Hp Ha Hb Hrest line H lines i pd.
  assert (ASG01.loop_body lines i line pd = Ok (<[k := VStr b]> pd)) as H1.
  { eapply ASG01_body_second_field; [done | done |]. by apply second_field. }
  split; [done |]. rewrite App_facts.body_agrees; [done | |];
    repeat (apply elem_of_cons in Hp as [[= -> ->] | Hp]);
    try (by apply elem_of_nil in Hp);
    by (eapply startswith_other; [exact H | intros r]).
Qed.

Lemma second_field_is_stored_verbatim_witness :
  ASG01.loop_body [] 0 "DR   SUPFAM; SSF46458; Globin-like; 1." ∅
  = Ok {["Structure" := VStr " SSF46458"]}.
Proof.
  apply (proj1 (second_field_is_stored_verbatim "DR   SUPFAM" "Structure"
                  "DR   SUPFAM" " SSF46458" "; Globin-like; 1."
                  (list_elem_of_here _ _) eq_refl eq_refl
                  (or_intror (ex_intro _ " Globin-like; 1." eq_refl)) eq_refl [] 0%nat ∅)).
Defined.

(** X6. The [Name] of an [ID] line with at least two tokens splits again
    into exactly the tokens after the first: every run of whitespace of the
    line is stored as one space. *)
Theorem Name_splits_into_the_tokens (line : string) :
  startswith line "ID" = true -> (2 ≤ length (split_ws line))%nat ->
  exists name,
    (forall lines i pd,
       ASG01.loop_body lines i line pd = Ok (<["Name" := VStr name]> pd)) /\
    split_ws name = drop 1 (split_ws line).
Proof.
  intros H Hlen. exists (join " " (drop 1 (split_ws line))). split.
  - intros lines i pd. rewrite ASG01_facts.body_ID by done.
    by rewrite bool_decide_eq_true_2 by done.
  - apply split_ws_join, Forall_drop, split_ws_tokens.
Qed.

Lemma Name_splits_into_the_tokens_witness :
  exists name,
    (forall lines i pd,
       ASG01.loop_body lines i "ID   HBA_HUMAN     Reviewed;   142 AA." pd =
         Ok (<["Name" := VStr name]> pd)) /\
    split_ws name = ["HBA_HUMAN"; "Reviewed;"; "142"; "AA."].
Proof.
  apply (Name_splits_into_the_tokens "ID   HBA_HUMAN     Reviewed;   142 AA." eq_refl).
  vm_compute. lia.
Defined.

(** X7. The integer conversion of [Length] is unguarded: an [FT   MOD_RES]
    line whose third token has a character other than a digit, a sign or an
    underscore raises [ValueError] in both variants; no field of that line
    is stored and the extractor returns no record. *)
Theorem non_integer_Length_raises (line part : string) :
  startswith line "FT   MOD_RES" = true ->
  split_ws line !! 2%nat = Some part -> has_other_char part = true ->
  (forall lines i pd,
     ASG01.loop_body lines i line pd = Raise ValueError /\
     App.loop_body lines i line pd = Raise ValueError) /\
  (forall uniprot_id pre post,
     exists e, ASG01.extract uniprot_id (pre ++ line :: post) = Raise e).
Proof.
  intros H Hp Ho.
  assert (int part = Raise ValueError) as Hi
    by (apply int_rejects; [by eapply lookup_token | done]).
  split.
  - intros lines i pd. rewrite App_body_FT by done.
    split; by eapply ASG01_body_FT_bad.
  - intros uniprot_id pre post. unfold ASG01.extract. rewrite ASG01_for_loop.
    apply loop_raises. intros pd1. exists ValueError. by eapply ASG01_body_FT_bad.
Qed.

Lemma non_integer_Length_raises_witness :
  ASG01.loop_body [] 0 "FT   MOD_RES 4..10 ; Phosphoserine" ∅ = Raise ValueError.
Proof.
  apply (proj1 (non_integer_Length_raises "FT   MOD_RES 4..10 ; Phosphoserine" "4..10"
                  eq_refl eq_refl eq_refl)).
Defined.

(** X8. An [FT   MOD_RES] line whose third token is a run of decimal
    digits: with at most [int_max_str_digits] (4300) digits its step never
    raises and stores the number the digits write, which is not negative, as
    [Length]; with more digits the step raises [ValueError]. *)
Theorem digits_give_Length (line part : string) :
  startswith line "FT   MOD_RES" = true ->
  split_ws line !! 2%nat = Some part -> all_digits part = true ->
  (Z.of_nat (String.length part) <= int_max_str_digits ->
   0 <= decimal part /\
   forall lines i pd,
     exists pd', ASG01.loop_body lines i line pd = Ok pd' /\
                 pd' !! "Length" = Some (VInt (decimal part))) /\
  (int_max_str_digits < Z.of_nat (String.length part) ->
   forall lines i pd, ASG01.loop_body lines i line pd = Raise ValueError).
Proof.
  intros H Hp Hd.
  pose proof (int_of_digits part (proj1 (lookup_token _ _ _ Hp)) Hd) as Hi.
  split.
  - intros Hlen. rewrite (proj2 (Z.leb_le _ _) Hlen) in Hi.
    split; [by apply decimal_from_nonneg |].
    intros lines i pd. rewrite ASG01_facts.body_FT by done.
    rewrite (bool_decide_eq_true_2 (3 ≤ length (split_ws line))%nat)
      by (apply lookup_lt_Some in Hp; lia).
    rewrite (getitem_Some _ _ _ Hp). cbn [mbind result_bind Py.bind]. rewrite Hi.
    cbn [mbind result_bind Py.bind]. eexists. split; [done |].
    destruct (bool_decide _); [rewrite lookup_insert_ne by done |]; apply lookup_insert_eq.
  - intros Hlen lines i pd. rewrite (proj2 (Z.leb_gt _ _) Hlen) in Hi.
    by eapply ASG01_body_FT_bad.
Qed.

Lemma digits_give_Length_witness :
  0 <= 104 /\
  forall lines i pd,
    exists pd', ASG01.loop_body lines i "FT   MOD_RES       104    104       Phosphoserine." pd
                  = Ok pd' /\
                pd' !! "Length" = Some (VInt 104).
Proof.
  apply (proj1 (digits_give_Length "FT   MOD_RES       104    104       Phosphoserine." "104"
                  eq_refl eq_refl eq_refl)).
  vm_compute. discriminate.
Defined.

(** X9. On a 200 answer both variants run the extractor on the lines of
    [splitlines()] of the body.  None of these lines contains a line
    boundary; a body made of lines each ended by a line feed, or each by a
    carriage return and a line feed, is read as exactly those lines; a body
    without any boundary is one line, and no line when it is empty. *)
Theorem fetched_lines_are_the_lines_of_the_body (web : url -> response)
    (uniprot_id : string) :
  status_code (web (UniProt uniprot_id)) = 200 ->
  let body := text (web (UniProt uniprot_id)) in
  ASG01.get_protein_data web uniprot_id =
    IO [requests_get (UniProt uniprot_id)] (ASG01.extract uniprot_id (splitlines body)) /\
  App.get_protein_data web uniprot_id =
    IO [requests_get (UniProt uniprot_id)] (App.extract uniprot_id (splitlines body)) /\
  Forall (fun line => no_linebreak line = true) (splitlines body) /\
  (forall eol lines, eol = LF \/ eol = CRLF ->
     Forall (fun line => no_linebreak line = true) lines ->
     body = terminated eol lines -> splitlines body = lines) /\
  (no_linebreak body = true ->
   splitlines body = match body with "" => [] | _ => [body] end).
Proof.
  intros H body. split; [| split; [| split; [| split]]].
  - by apply ASG01_get_protein_data_fetched.
  - by apply App_get_protein_data_fetched.
  - by apply splitlines_go_no_linebreak.
  - intros eol lines Heol Hl ->. by apply splitlines_terminated.
  - intros Hb. unfold splitlines. rewrite splitlines_go_plain by done.
    change ("" +:+ body) with body. by destruct body.
Qed.

Lemma fetched_lines_are_the_lines_of_the_body_witness :
  let web := fun _ : url =>
    Response 200 (terminated CRLF ["ID   HBA_HUMAN"; "AC   P69905;"; "//"])
             (Raise JSONDecodeError) in
  ASG01.get_protein_data web "P69905" =
    IO [requests_get (UniProt "P69905")]
       (Ok (<["Name" := VStr "HBA_HUMAN"]> {["ID" := VStr "P69905"]})).
Proof.
  intros web.
  rewrite (proj1 (fetched_lines_are_the_lines_of_the_body web "P69905" eq_refl)).
  vm_compute. reflexivity.
Defined.

(** X10. Splitting at [;] loses nothing: the pieces joined with [;] give the
    line back.  So on a line with a [;], the first piece, a [;] and the
    untrimmed [PTMs] pieces joined with [;] are the line. *)
Theorem semicolon_pieces_rebuild_the_line (line : string) :
  join ";" (split line ";") = line /\
  (contains ";" line = true ->
   exists first, split line ";" !! 0%nat = Some first /\
     line = first +:+ ";" +:+ join ";" (drop 1 (split line ";"))).
Proof.
  split; [by apply join_split |]. intros H.
  pose proof (semicolon_fields line H) as Hne.
  pose proof (join_split line ";" ltac:(done)) as Hj.
  destruct (split line ";") as [|first l]; [done |].
  exists first. split; [done |]. cbn [drop] in *.
  by rewrite join_cons in Hj.
Qed.

Lemma semicolon_pieces_rebuild_the_line_witness :
  join ";" (split "FT   MOD_RES 4 ; Phosphoserine ; by PKA" ";")
    = "FT   MOD_RES 4 ; Phosphoserine ; by PKA".
Proof.
  apply (proj1 (semicolon_pieces_rebuild_the_line "FT   MOD_RES 4 ; Phosphoserine ; by PKA")).
Defined.

(** X11. The characteristics display never raises on a record returned by
    the extractor of either variant, and its first line after the heading
    shows the identifier as it was entered. *)
Theorem characteristics_never_raise (uniprot_id : string) (lines : list string)
    (r : gmap string value) :
  ASG01.extract uniprot_id lines = Ok r \/ App.extract uniprot_id lines = Ok r ->
  outcome (display_protein_characteristics r) = Ok tt /\
  take 2 (trace (display_protein_characteristics r)) =
    [st_subheader "Protein Characteristics";
     st_write [Lit "**UniProt ID:** "; Fmt (VStr uniprot_id)]].
Proof.
  intros H. rewrite display_first_lines. destruct H as [H | H].
  - split; [eapply display_outcome, typed_PTMs; by eapply ASG01_extract_fields |].
    by rewrite (extract_ID _ _ _ H).
  - split; [eapply display_outcome, typed_PTMs; by eapply App_extract_fields |].
    by rewrite (App_extract_ID _ _ _ H).
Qed.

Lemma characteristics_never_raise_witness :
  let r : gmap string value :=
    <["PTMs" := VList ["Phosphoserine"]]>
      (<["Length" := VInt 4]> {["ID" := VStr "P69905"]}) in
  outcome (display_protein_characteristics r) = Ok tt /\
  take 2 (trace (display_protein_characteristics r)) =
    [st_subheader "Protein Characteristics";
     st_write [Lit "**UniProt ID:** "; Fmt (VStr "P69905")]].
Proof.
  intros r.
  apply (characteristics_never_raise "P69905" ["FT   MOD_RES 4 ; Phosphoserine"] r).
  left. vm_compute. reflexivity.
Defined.

(** X12. In the first variant a cycle whose record is fetched and read
    always completes: after the request come the characteristics and then
    the placeholder network, and no exception leaves [main]. *)
Theorem first_variant_cycle_completes (web : url -> response) (uniprot_id : string)
    (r : gmap string value) :
  uniprot_id <> "" -> status_code (web (UniProt uniprot_id)) = 200 ->
  ASG01.extract uniprot_id (splitlines (text (web (UniProt uniprot_id)))) = Ok r ->
  ASG01.main web uniprot_id true =
    IO (ASG01_prologue ++ [requests_get (UniProt uniprot_id)] ++
        trace (display_protein_characteristics r) ++
        [st_subheader "Protein-Protein Interaction Network";
         st_pyplot (prod_map JStr JStr <$> ASG01.get_ppi_network uniprot_id)])
       (Ok tt).
Proof.
  intros Hid Hs Hr. rewrite ASG01_main_clicked by done.
  rewrite ASG01_get_protein_data_fetched by done. rewrite Hr.
  assert (outcome (display_protein_characteristics r) = Ok tt) as Ho
    by (eapply display_outcome, typed_PTMs; by eapply ASG01_extract_fields).
  assert (r <> ∅) as Hne by (eapply record_not_empty; by eapply extract_ID).
  rewrite !io_bind_eq. cbn [trace outcome].
  rewrite (bool_decide_eq_false_2 (r = ∅)) by done. cbn [negb when].
  rewrite !io_bind_eq. rewrite Ho. cbn [trace outcome]. reflexivity.
Qed.

Lemma first_variant_cycle_completes_witness :
  let web := fun _ : url => Response 200 "ID   HBA_HUMAN" (Raise JSONDecodeError) in
  outcome (ASG01.main web "P69905" true) = Ok tt.
Proof.
  intros web.
  rewrite (first_variant_cycle_completes web "P69905"
             (<["Name" := VStr "HBA_HUMAN"]> {["ID" := VStr "P69905"]}));
    [reflexivity | discriminate | reflexivity | vm_compute; reflexivity].
Defined.

(** X13. In the second variant a failed interaction fetch (status other
    than 200) does not end the cycle: an error is shown, the network view
    warns that nothing was found and draws nothing, and the structure viewer
    still runs; no exception leaves [main]. *)
Theorem failed_interaction_fetch_is_isolated (web : url -> response)
    (uniprot_id : string) (r : gmap string value) :
  uniprot_id <> "" -> status_code (web (UniProt uniprot_id)) = 200 ->
  App.extract uniprot_id (splitlines (text (web (UniProt uniprot_id)))) = Ok r ->
  status_code (web (StringDB uniprot_id 9606)) <> 200 ->
  App.main web uniprot_id true =
    IO (App_prologue ++ [requests_get (UniProt uniprot_id)] ++
        trace (display_protein_characteristics r) ++
        [requests_get (StringDB uniprot_id 9606);
         st_error "Failed to fetch PPI data from STRING DB.";
         st_subheader "Protein-Protein Interaction Network";
         st_warning "No interactions found for this protein in STRING DB."] ++
        trace (App.display_structure web r))
       (Ok tt).
Proof.
  intros Hid Hs Hr Hp. rewrite (App_main_read _ _ r) by done.
  rewrite App_get_ppi_network_failed by done.
  rewrite !io_bind_eq. cbn [trace outcome App.display_ppi_network].
  rewrite !io_bind_eq. cbn [trace outcome emit].
  rewrite display_structure_outcome. by rewrite <- !app_assoc.
Qed.

Lemma failed_interaction_fetch_is_isolated_witness :
  let web := fun u : url =>
    match u with
    | StringDB _ _ => Response 503 "" (Raise JSONDecodeError)
    | _ => Response 200 "ID   HBA_HUMAN" (Raise JSONDecodeError)
    end in
  outcome (App.main web "P69905" true) = Ok tt.
Proof.
  intros web.
  rewrite (failed_interaction_fetch_is_isolated web "P69905"
             (<["Name" := VStr "HBA_HUMAN"]> {["ID" := VStr "P69905"]}));
    [reflexivity | discriminate | reflexivity | vm_compute; reflexivity | discriminate].
Defined.

(** X14. [get_ppi_network] checks nothing about the answer it decodes: an
    undecodable body, a scalar, a non-empty JSON object, or a list with an
    entry that is not an object (even after good entries) each make it
    raise, after the request, instead of returning edges. *)
Theorem malformed_interaction_answer_raises (web : url -> response)
    (uniprot_id : string) (species : Z) :
  status_code (web (StringDB uniprot_id species)) = 200 ->
  let answer := json_body (web (StringDB uniprot_id species)) in
  let raises e :=
    App.get_ppi_network web uniprot_id species =
      IO [requests_get (StringDB uniprot_id species)] (Raise e) in
  (forall e, answer = Raise e -> raises e) /\
  (forall data, answer = Ok data ->
     match data with JNull | JBool _ | JInt _ | JFloat _ => True | _ => False end ->
     raises TypeError) /\
  (forall m, answer = Ok (JObj m) -> m <> ∅ -> raises AttributeError) /\
  (forall good bad rest, answer = Ok (JArr (good ++ bad :: rest)) ->
     Forall is_object good -> ~ is_object bad -> raises AttributeError).
Proof.
  intros H answer raises. subst raises answer. cbv beta.
  rewrite App_get_ppi_network_fetched by done. repeat split.
  - intros e ->. done.
  - intros data -> Hd. by destruct data.
  - intros m -> Hm. cbn. f_equal.
    destruct (map_to_list m) as [|[k v] l] eqn:E.
    + by apply map_to_list_empty_iff in E.
    + done.
  - intros good bad rest -> Hg Hb. cbn. f_equal. rewrite ppi_loop_app.
    destruct (ppi_loop_objects_return good [] Hg) as [edges ->]. cbn.
    by apply ppi_loop_not_object.
Qed.

Lemma malformed_interaction_answer_raises_witness :
  let web := fun _ : url =>
    Response 200 ""
      (Ok (JArr ([JObj {["preferredName_A" := JStr "HBA1"]}] ++ JStr "error" :: []))) in
  App.get_ppi_network web "P69905" 9606 =
    IO [requests_get (StringDB "P69905" 9606)] (Raise AttributeError).
Proof.
  intros web.
  destruct (malformed_interaction_answer_raises web "P69905" 9606 eq_refl)
    as (_ & _ & _ & H).
  apply (H [JObj {["preferredName_A" := JStr "HBA1"]}] (JStr "error") [] eq_refl).
  - repeat constructor. by eexists.
  - intros [m Hm]. discriminate Hm.
Defined.

(** X15. When the interaction answer cannot be decoded, the exception
    leaves [main] of the second variant: the characteristics stay shown,
    but neither the network view nor the structure viewer runs. *)
Theorem undecodable_interactions_end_cycle (web : url -> response)
    (uniprot_id : string) (r : gmap string value) (e : exn) :
  uniprot_id <> "" -> status_code (web (UniProt uniprot_id)) = 200 ->
  App.extract uniprot_id (splitlines (text (web (UniProt uniprot_id)))) = Ok r ->
  status_code (web (StringDB uniprot_id 9606)) = 200 ->
  json_body (web (StringDB uniprot_id 9606)) = Raise e ->
  App.main web uniprot_id true =
    IO (App_prologue ++ [requests_get (UniProt uniprot_id)] ++
        trace (display_protein_characteristics r) ++
        [requests_get (StringDB uniprot_id 9606)])
       (Raise e).
Proof.
  intros Hid Hs Hr Hp He. rewrite (App_main_read _ _ r) by done.
  rewrite App_get_ppi_network_fetched by done. rewrite He.
  rewrite !io_bind_eq. cbn [trace outcome mbind result_bind Py.bind].
  by rewrite <- !app_assoc.
Qed.

Lemma undecodable_interactions_end_cycle_witness :
  let web := fun _ : url => Response 200 "ID   HBA_HUMAN" (Raise JSONDecodeError) in
  outcome (App.main web "P69905" true) = Raise JSONDecodeError.
Proof.
  intros web.
  rewrite (undecodable_interactions_end_cycle web "P69905"
             (<["Name" := VStr "HBA_HUMAN"]> {["ID" := VStr "P69905"]}) JSONDecodeError);
    [reflexivity | discriminate | reflexivity | vm_compute; reflexivity
    | reflexivity | reflexivity].
Defined.

(** X16. Without a click, or with an empty input, a cycle of either
    variant shows the form only: no request is made and nothing else is
    displayed. *)
Theorem idle_cycle_requests_nothing (web : url -> response) (uniprot_id : string)
    (clicked : bool) :
  clicked = false \/ uniprot_id = "" ->
  ASG01.main web uniprot_id clicked = IO ASG01_prologue (Ok tt) /\
  App.main web uniprot_id clicked = IO App_prologue (Ok tt).
Proof. intros [-> | ->]; [done |]. by destruct clicked. Qed.

Lemma idle_cycle_requests_nothing_witness :
  ASG01.main empty_web "" true = IO ASG01_prologue (Ok tt) /\
  App.main empty_web "" true = IO App_prologue (Ok tt).
Proof. apply idle_cycle_requests_nothing. by right. Defined.

(** X17. In a record of the second variant [PDB_ID] and [AlphaFold_ID] are
    strings without whitespace at either end: the identifier put into the
    structure url is trimmed. *)
Theorem structure_ids_are_trimmed (uniprot_id : string) (lines : list string)
    (r : gmap string value) (k : string) (v : value) :
  App.extract uniprot_id lines = Ok r ->
  k = "PDB_ID" \/ k = "AlphaFold_ID" -> r !! k = Some v ->
  exists s, v = VStr s /\ trimmed s.
Proof.
  intros H Hk Hv. pose proof (App_extract_fields _ _ _ H k v Hv) as Hf.
  destruct v as [s | n | l]; cbn in Hf.
  - exists s. split; [done |]. apply Hf. destruct Hk as [-> | ->]; key_in.
  - by destruct Hk as [-> | ->].
  - destruct Hf as [-> _]. by destruct Hk.
Qed.

Lemma structure_ids_are_trimmed_witness :
  exists s, VStr "1A00" = VStr s /\ trimmed s.
Proof.
  apply (structure_ids_are_trimmed "P69905" ["DR   PDB;  1A00 ; X-ray; 2.10 A"]
           (<["PDB_ID" := VStr "1A00"]> {["ID" := VStr "P69905"]}) "PDB_ID").
  - vm_compute. reflexivity.
  - by left.
  - vm_compute. reflexivity.
Defined.

(** X18. In the second variant every line that starts with [DR   PDB]
    stores its trimmed second [;]-field as [PDB_ID], a [DR   PDBsum] line
    like a [DR   PDB] line; the record returned holds the one of the last
    such line. *)
Theorem PDB_ID_of_last_PDB_prefixed_line (line b : string) :
  startswith line "DR   PDB" = true -> split line ";" !! 1%nat = Some b ->
  (forall lines i pd,
     App.loop_body lines i line pd = Ok (<["PDB_ID" := VStr (strip b)]> pd)) /\
  (forall uniprot_id pre post r,
     Forall (fun l => startswith l "DR   PDB" = false) post ->
     App.extract uniprot_id (pre ++ line :: post) = Ok r ->
     r !! "PDB_ID" = Some (VStr (strip b))).
Proof.
  intros H Hb. split; [intros; by apply App_body_PDB |].
  intros uniprot_id pre post r Hpost Hr.
  unfold App.extract in Hr. rewrite App_for_loop, loop_app in Hr.
  apply result_bind_Ok in Hr as (pd1 & _ & Hr). cbn [loop] in Hr.
  apply result_bind_Ok in Hr as (pd2 & H2 & H3).
  rewrite App_body_PDB with (b := b) in H2 by done. injection H2 as <-.
  rewrite (loop_keep App.loop_body _ "PDB_ID" _ _ _ _
             (fun j l p1 p2 Hl Hbody =>
                App_body_keeps_PDB _ _ _ _ _ (proj1 (Forall_forall _ _) Hpost l Hl) Hbody)
             H3).
  apply lookup_insert_eq.
Qed.

Lemma PDB_ID_of_last_PDB_prefixed_line_witness :
  let r : gmap string value :=
    <["PDB_ID" := VStr "1A01"]> {["ID" := VStr "P69905"]} in
  App.extract "P69905" ["DR   PDB; 1A00; X-ray; 2.00 A; A/C=2-142.";
                        "DR   PDBsum; 1A01; -."; "//"] = Ok r /\
  r !! "PDB_ID" = Some (VStr "1A01").
Proof.
  intros r.
  assert (App.extract "P69905"
            (["DR   PDB; 1A00; X-ray; 2.00 A; A/C=2-142."] ++
             "DR   PDBsum; 1A01; -." :: ["//"]) = Ok r) as E
    by (vm_compute; reflexivity).
  split; [exact E |].
  apply (proj2 (PDB_ID_of_last_PDB_prefixed_line "DR   PDBsum; 1A01; -." " 1A01"
                  eq_refl eq_refl) "P69905"
           ["DR   PDB; 1A00; X-ray; 2.00 A; A/C=2-142."] ["//"] r); [| exact E].
  repeat constructor.
Defined.

(** X19. An [FT   MOD_RES] line with [n >= 1] semicolons whose step returns
    stores a [PTMs] list of exactly [n] entries: one per [;], empty pieces
    included. *)
Theorem PTMs_has_one_entry_per_semicolon (lines : list string) (i : nat)
    (line : string) (pd pd' : gmap string value) :
  startswith line "FT   MOD_RES" = true -> (0 < count_semicolons line)%nat ->
  ASG01.loop_body lines i line pd = Ok pd' ->
  exists l, pd' !! "PTMs" = Some (VList l) /\ length l = count_semicolons line.
Proof.
  intros H Hn Hb. eexists. split.
  - eapply body_FT_PTMs; [done | by apply count_semicolons_contains | done].
  - rewrite length_fmap, length_drop. unfold split.
    rewrite length_split_go_semicolon. lia.
Qed.

Lemma PTMs_has_one_entry_per_semicolon_witness :
  exists l,
    (<["PTMs" := VList ["Phosphoserine"; ""]]> (<["Length" := VInt 4]> ∅)
       : gmap string value) !! "PTMs" = Some (VList l) /\
    length l = count_semicolons "FT   MOD_RES 4 ; Phosphoserine ;".
Proof.
  apply (PTMs_has_one_entry_per_semicolon [] 0 "FT   MOD_RES 4 ; Phosphoserine ;" ∅ _
           eq_refl).
  - vm_compute. lia.
  - vm_compute. reflexivity.
Defined.

(** * The claims on [Name] and on the interaction edges *)

Section EdgeFacts.

Lemma truthy_edge_obj m :
  truthy_edge (JObj m) =
    let a := default JNull (m !! "preferredName_A") in
    let b := default JNull (m !! "preferredName_B") in
    if json_truthy a && json_truthy b then Some (a, b) else None.
Proof.
  unfold truthy_edge, present.
  destruct (m !! "preferredName_A") as [a|], (m !! "preferredName_B") as [b|]; cbn;
    try destruct (json_truthy a); try destruct (json_truthy b); done.
Qed.

Lemma ppi_loop_total entries : forall acc,
  App.ppi_loop entries acc =
    if forallb is_obj entries
    then Ok (acc ++ omap truthy_edge entries)
    else Raise AttributeError.
Proof.
  induction entries as [|entry entries IH]; intros acc.
  - cbn. by rewrite app_nil_r.
  - destruct entry as [| | | | | |m]; try done.
    cbn [App.ppi_loop App.entry_get mbind result_bind Py.bind forallb is_obj andb].
    rewrite IH. destruct (forallb is_obj entries); [| done]. f_equal.
    cbn [omap list_omap]. rewrite truthy_edge_obj. cbv zeta.
    destruct (json_truthy _ && json_truthy _); by rewrite <- ?app_assoc.
Qed.

Lemma present_inv entry k v :
  present entry k = Some v ->
  json_truthy v = true /\ exists m, entry = JObj m /\ m !! k = Some v.
Proof.
  unfold present. destruct entry as [| | | | | |m]; try done.
  destruct (m !! k) as [x|] eqn:E; [| done].
  destruct (json_truthy x) eqn:T; [| done]. intros [= <-]. split; [done |]. by exists m.
Qed.

Lemma truthy_edge_inv entry a b :
  truthy_edge entry = Some (a, b) ->
  present entry "preferredName_A" = Some a /\ present entry "preferredName_B" = Some b.
Proof.
  unfold truthy_edge.
  destruct (present entry "preferredName_A") as [x|]; [| done].
  destruct (present entry "preferredName_B") as [y|]; [| done].
  cbn. by intros [= <- <-].
Qed.

Lemma present_name entry k v :
  interaction_record entry -> k = "preferredName_A" \/ k = "preferredName_B" ->
  present entry k = Some v -> exists s, v = JStr s /\ s <> "".
Proof.
  intros (m & -> & HA & HB) Hk Hv.
  apply present_inv in Hv as (Ht & m' & [= <-] & Hm).
  assert (name_field m k) as [Hf | [Hf | [s Hf]]] by (by destruct Hk as [-> | ->]);
    rewrite Hf in Hm; try done.
  - injection Hm as <-. done.
  - injection Hm as <-. exists s. split; [done |]. cbn in Ht.
    apply negb_true_iff in Ht. by apply String.eqb_neq.
Qed.

End EdgeFacts.

(** C5, as the code has it.  An [ID] line always stores [Name] (it never
    raises): the tokens after the first joined with single spaces when the
    line has at least two whitespace-delimited tokens, the placeholder
    [Not available] when it has fewer; the record returned holds the [Name]
    of the last [ID] line.  The [Name] is the placeholder text exactly when
    the line has fewer than two tokens or its tokens after the first are
    [Not] and [available]. *)
Theorem Name_is_joined_tail_or_placeholder (uniprot_id : string)
    (pre post : list string) (line : string) :
  startswith line "ID" = true ->
  let tokens := split_ws line in
  let name := if bool_decide (length tokens < 2)%nat
              then "Not available" else join " " (drop 1 tokens) in
  (forall lines i pd,
     ASG01.loop_body lines i line pd = Ok (<["Name" := VStr name]> pd)) /\
  (forall r, Forall (fun l => startswith l "ID" = false) post ->
     ASG01.extract uniprot_id (pre ++ line :: post) = Ok r ->
     r !! "Name" = Some (VStr name)) /\
  (name = "Not available" <->
   (length tokens < 2)%nat \/ drop 1 tokens = ["Not"; "available"]).
Proof.
  intros H tokens name.
  assert (forall lines i pd,
    ASG01.loop_body lines i line pd = Ok (<["Name" := VStr name]> pd)) as Hbody.
  { intros lines i pd. rewrite ASG01_facts.body_ID by done. subst name tokens.
    destruct (decide (2 ≤ length (split_ws line))%nat).
    - rewrite bool_decide_eq_true_2 by done. by rewrite bool_decide_eq_false_2 by lia.
    - rewrite bool_decide_eq_false_2 by done. by rewrite bool_decide_eq_true_2 by lia. }
  split; [done |]. split.
  - intros r Hpost Hr.
    apply extract_split in Hr as (pd1 & pd2 & _ & H2 & H3).
    rewrite Hbody in H2. injection H2 as <-.
    erewrite last_trigger_wins; [apply lookup_insert_eq | | done].
    eapply Forall_impl; [done |]. intros l Hl. by rewrite triggers_Name.
  - subst name. destruct (decide (length tokens < 2)%nat) as [Hlt | Hge].
    + rewrite bool_decide_eq_true_2 by done. split; [by left | done].
    + rewrite bool_decide_eq_false_2 by done. split.
      * intros E. right.
        rewrite <- (split_ws_join (drop 1 tokens))
          by apply Forall_drop, split_ws_tokens.
        by rewrite E.
      * intros [Hlt | ->]; [lia | done].
Qed.

Lemma Name_is_joined_tail_or_placeholder_witness :
  let r : gmap string value :=
    <["Name" := VStr "SOME_NAME Reviewed; 141 AA."]> {["ID" := VStr "P69905"]} in
  ASG01.extract "P69905" ["AC   P69905;"; "ID   SOME_NAME Reviewed; 141 AA."; "//"] = Ok r /\
  r !! "Name" = Some (VStr "SOME_NAME Reviewed; 141 AA.").
Proof.
  intros r.
  assert (ASG01.extract "P69905"
            (["AC   P69905;"] ++ "ID   SOME_NAME Reviewed; 141 AA." :: ["//"]) = Ok r) as E
    by (vm_compute; reflexivity).
  split; [exact E |].
  apply (proj1 (proj2 (Name_is_joined_tail_or_placeholder "P69905" ["AC   P69905;"] ["//"]
                         "ID   SOME_NAME Reviewed; 141 AA." eq_refl)) r); [| exact E].
  repeat constructor.
Defined.

(** C5 fails in its only-if half: the line [ID   Not available] has three
    tokens, and its [Name] is the placeholder text. *)
Lemma placeholder_text_from_three_tokens :
  let line := "ID   Not available" in
  startswith line "ID" = true /\ length (split_ws line) = 3%nat /\
  ASG01.extract "P69905" [line] =
    Ok (<["Name" := VStr "Not available"]> {["ID" := VStr "P69905"]}).
Proof. repeat split; vm_compute; reflexivity. Qed.

(** C10, as the code has it.  On a successful answer that is a JSON list,
    [get_ppi_network] returns, in order, one edge for each entry whose two
    name fields are both present and true in Python's sense (for a string:
    non-empty), holding the two values as they are, and nothing for the
    other entries; an entry that is not an object makes it raise
    [AttributeError].  The edge of an entry whose name fields are strings
    (or null, or missing) consists of two non-empty name strings. *)
Theorem edges_for_truthy_name_fields (web : url -> response) (uniprot_id : string)
    (species : Z) (entries : list json) :
  status_code (web (StringDB uniprot_id species)) = 200 ->
  json_body (web (StringDB uniprot_id species)) = Ok (JArr entries) ->
  App.get_ppi_network web uniprot_id species =
    IO [requests_get (StringDB uniprot_id species)]
       (if forallb is_obj entries
        then Ok (omap truthy_edge entries)
        else Raise AttributeError) /\
  (forall a b, (a, b) ∈ omap truthy_edge entries ->
     exists entry, entry ∈ entries /\
       present entry "preferredName_A" = Some a /\
       present entry "preferredName_B" = Some b /\
       json_truthy a = true /\ json_truthy b = true) /\
  (forall entry,
     present entry "preferredName_A" = None \/ present entry "preferredName_B" = None ->
     truthy_edge entry = None) /\
  (forall entry a b, truthy_edge entry = Some (a, b) -> interaction_record entry ->
     exists sa sb, a = JStr sa /\ b = JStr sb /\ sa <> "" /\ sb <> "").
Proof.
  intros Hs Hj. split; [| split; [| split]].
  - rewrite App_get_ppi_network_fetched by done. rewrite Hj.
    cbn [mbind result_bind Py.bind App.json_iter]. by rewrite ppi_loop_total.
  - intros a b Hab. apply list_elem_of_omap in Hab as (entry & Hin & Hedge).
    apply truthy_edge_inv in Hedge as [HA HB]. exists entry.
    repeat split; try done; by eapply present_inv.
  - intros entry [H | H]; unfold truthy_edge; rewrite H; [done |].
    by destruct (present entry "preferredName_A").
  - intros entry a b Hedge Hrec. apply truthy_edge_inv in Hedge as [HA HB].
    destruct (present_name _ _ _ Hrec (or_introl eq_refl) HA) as (sa & -> & Hsa).
    destruct (present_name _ _ _ Hrec (or_intror eq_refl) HB) as (sb & -> & Hsb).
    by exists sa, sb.
Qed.

Lemma edges_for_truthy_name_fields_witness :
  let entries :=
    [JObj {["preferredName_A" := JStr "HBA1"; "preferredName_B" := JStr "HBB"]};
     JObj {["preferredName_A" := JStr "HBA1"]};
     JObj {["preferredName_A" := JStr ""; "preferredName_B" := JNull]}] in
  let web := fun _ : url => Response 200 "" (Ok (JArr entries)) in
  App.get_ppi_network web "P69905" 9606 =
    IO [requests_get (StringDB "P69905" 9606)] (Ok [(JStr "HBA1", JStr "HBB")]).
Proof.
  intros entries web.
  rewrite (proj1 (edges_for_truthy_name_fields web "P69905" 9606 entries eq_refl eq_refl)).
  vm_compute. reflexivity.
Defined.

(** C10 fails on an entry whose name fields are numbers: both are present
    and true, and the edge returned consists of the two numbers, not of
    name strings. *)
Lemma numeric_names_give_a_numeric_edge :
  let web := fun _ : url =>
    Response 200 ""
      (Ok (JArr [JObj {["preferredName_A" := JInt 1; "preferredName_B" := JInt 2]}])) in
  App.get_ppi_network web "P69905" 9606 =
    IO [requests_get (StringDB "P69905" 9606)] (Ok [(JInt 1, JInt 2)]).
Proof. vm_compute. reflexivity. Qed.
